(** * mp4-to-mp3: the converter CLI, embedded and checked against its specification

    Two programs are embedded, each in a module of its own:
    - [Cli]    : [src/mp4_to_mp3/cli.py], the packaged command line tool;
    - [Legacy] : [src/mp4_to_mp3.py], the earlier single-file script.

    Both are effectful Python: they read the file system, prompt on standard
    input, print, and start external processes (ffprobe, ffmpeg).  The
    embedding threads a [state] (file system, pending input lines, output
    trace) through a small state-and-exception monad; the external tools and
    the few Python library calls that are not written out are fields of an
    environment record [env], over which every theorem quantifies.

    The file has four parts: the embedding (Python strings and values,
    pathlib, the file system, the monad, the two programs, and the notions
    the statements use), the lemmas on it, the properties of the
    specification, C1 to C10, each stated for the code as embedded, and
    further properties of the code, X1 to X18: the questions, whole runs,
    the tools and the probes, destinations and candidates. *)

From Stdlib Require Import List String Ascii ZArith Bool Lia.
From Stdlib Require Import Sorting Permutation Orders OrdersEx OrdersFacts.
From Stdlib Require Import DecimalString.
Import ListNotations.

Local Open Scope string_scope.
Local Open Scope list_scope.

Notation "a ^^ b" := (String.append a b) (at level 60, right associativity).

(* ================================================================= *)
(** ** Python strings *)

(** Strings are byte strings; the case mappings act on ASCII letters, which
    is all that the extension and codec comparisons of the program need. *)
Module Py.

Definition lower_ascii (c : ascii) : ascii :=
  let n := nat_of_ascii c in
  if (65 <=? n)%nat && (n <=? 90)%nat then ascii_of_nat (n + 32) else c.

Definition upper_ascii (c : ascii) : ascii :=
  let n := nat_of_ascii c in
  if (97 <=? n)%nat && (n <=? 122)%nat then ascii_of_nat (n - 32) else c.

Fixpoint map_string (f : ascii -> ascii) (s : string) : string :=
  match s with
  | EmptyString => EmptyString
  | String c r => String (f c) (map_string f r)
  end.

(** [str.lower()] and [str.upper()]. *)
Definition lower : string -> string := map_string lower_ascii.
Definition upper : string -> string := map_string upper_ascii.

(** White space as [str.strip()] sees it in ASCII. *)
Definition is_space (c : ascii) : bool :=
  let n := nat_of_ascii c in
  (n =? 32)%nat || ((9 <=? n)%nat && (n <=? 13)%nat)
  || ((28 <=? n)%nat && (n <=? 31)%nat).

Fixpoint lstrip (s : string) : string :=
  match s with
  | EmptyString => EmptyString
  | String c r => if is_space c then lstrip r else s
  end.

Fixpoint rstrip (s : string) : string :=
  match s with
  | EmptyString => EmptyString
  | String c r =>
      match rstrip r with
      | EmptyString => if is_space c then EmptyString else String c EmptyString
      | r' => String c r'
      end
  end.

(** [str.strip()]. *)
Definition strip (s : string) : string := rstrip (lstrip s).

(** [x in {...}] and [x in d] for string keys. *)
Definition mem (x : string) (l : list string) : bool :=
  existsb (String.eqb x) l.

(** [d[k]] / [d.get(k)] on a dict kept as its list of items. *)
Fixpoint assoc {V : Type} (k : string) (items : list (string * V)) : option V :=
  match items with
  | [] => None
  | (k', v) :: rest => if String.eqb k k' then Some v else assoc k rest
  end.

(** [sep.join(l)]. *)
Definition join (sep : string) (l : list string) : string :=
  String.concat sep l.

(** [str(n)] for an [int]. *)
Definition str_of_int (n : Z) : string :=
  NilZero.string_of_int (Z.to_int n).

End Py.

(* ================================================================= *)
(** ** pathlib *)

(** A [Path] is an absolute, resolved path, kept as pathlib keeps it: the
    list of its parts below the root. *)
Definition Path := list string.

Module PathLib.

(** [p.name]: the last part, or the empty string for the root. *)
Definition name (p : Path) : string := last p "".

(** [p.parent]. *)
Definition parent (p : Path) : Path := removelast p.

(** [p / s] for a single part [s]. *)
Definition joinpath (p : Path) (s : string) : Path := p ++ [s].

(** [str(p)]. *)
Definition str (p : Path) : string := "/" ^^ Py.join "/" p.

(** Splitting a name at its last dot: [Some (before, from_the_dot)],
    [None] when the name has no dot ([name.rfind('.')]). *)
Fixpoint rsplit_dot (s : string) : option (string * string) :=
  match s with
  | EmptyString => None
  | String c r =>
      match rsplit_dot r with
      | Some (a, b) => Some (String c a, b)
      | None => if Ascii.eqb c "."%char then Some (EmptyString, s) else None
      end
  end.

(** pathlib's test [0 < i < len(name) - 1] on the position [i] of the last
    dot: a leading dot and a trailing dot do not start a suffix. *)
Definition split_name (n : string) : string * string :=
  match rsplit_dot n with
  | Some (a, b) =>
      if (0 <? String.length a)%nat && (1 <? String.length b)%nat
      then (a, b) else (n, "")
  | None => (n, "")
  end.

(** [p.suffix] and [p.stem]. *)
Definition suffix (p : Path) : string := snd (split_name (name p)).
Definition stem (p : Path) : string := fst (split_name (name p)).

(** Paths compare as the lists of their parts, part by part, each part by
    its characters' codes. *)
Definition compare (p q : Path) : comparison :=
  list_compare String_as_OT.compare p q.

Definition leb (p q : Path) : bool :=
  match compare p q with Gt => false | _ => true end.

Definition le (p q : Path) : Prop := leb p q = true.

End PathLib.

(** Python's [sorted] on paths, as an insertion sort by [PathLib.leb].  The
    order is total and antisymmetric, so every sorting function, the merge
    sort of Python included, returns this same list. *)
Fixpoint insert_sorted (p : Path) (l : list Path) : list Path :=
  match l with
  | [] => [p]
  | q :: rest => if PathLib.leb p q then p :: l else q :: insert_sorted p rest
  end.

Definition sorted (l : list Path) : list Path := fold_right insert_sorted [] l.


(* ================================================================= *)
(** ** Python values and exceptions *)

(** What [json.loads] returns.  Numbers are integers: ffprobe prints the
    fields read here as integers or as strings. *)
#[local] Unset Elimination Schemes.
Inductive json : Type :=
| JNull
| JBool (b : bool)
| JNum (n : Z)
| JStr (s : string)
| JArr (items : list json)
| JObj (fields : list (string * json)).
#[local] Set Elimination Schemes.

(** [SystemExit] is not an [Exception]: [except Exception] lets it through.
    Every other exception the programs can meet is an [Exception]. *)
Inductive exn : Type :=
| SystemExit (msg : string)
| Error (kind : string).

Inductive result (A : Type) : Type :=
| Ok (a : A)
| Raise (e : exn).

Arguments Ok {A} a.
Arguments Raise {A} e.

(** Sequencing of computations that may raise but have no other effect. *)
Definition rbind {A B} (r : result A) (k : A -> result B) : result B :=
  match r with
  | Ok a => k a
  | Raise e => Raise e
  end.

Notation "x <~ c1 ;; c2" := (rbind c1 (fun x => c2))
  (at level 61, c1 at next level, right associativity).

Module PyVal.

(** [bool(v)]. *)
Definition truthy (v : json) : bool :=
  match v with
  | JNull => false
  | JBool b => b
  | JNum n => negb (n =? 0)%Z
  | JStr s => negb (String.eqb s "")
  | JArr items => match items with [] => false | _ => true end
  | JObj fields => match fields with [] => false | _ => true end
  end.

(** [v.get(k)]: only a dict has the method. *)
Definition get (v : json) (k : string) : result json :=
  match v with
  | JObj fields =>
      match Py.assoc k fields with Some x => Ok x | None => Ok JNull end
  | _ => Raise (Error "AttributeError")
  end.

(** [v[k]] for a string key. *)
Definition getitem (v : json) (k : string) : result json :=
  match v with
  | JObj fields =>
      match Py.assoc k fields with Some x => Ok x | None => Raise (Error "KeyError") end
  | _ => Raise (Error "TypeError")
  end.

(** [v[0]]. *)
Definition item0 (v : json) : result json :=
  match v with
  | JArr (x :: _) => Ok x
  | JArr [] => Raise (Error "IndexError")
  | JStr (String c _) => Ok (JStr (String c EmptyString))
  | JStr EmptyString => Raise (Error "IndexError")
  | JObj _ => Raise (Error "KeyError")
  | _ => Raise (Error "TypeError")
  end.

(** [int(v)], given the conversion of a string. *)
Definition to_int (int_of_str : string -> option Z) (v : json) : result Z :=
  match v with
  | JNum n => Ok n
  | JBool b => Ok (if b then 1 else 0)%Z
  | JStr s =>
      match int_of_str s with Some n => Ok n | None => Raise (Error "ValueError") end
  | _ => Raise (Error "TypeError")
  end.

(** [(v or "").lower()]: a falsy value gives way to the empty string; of the
    truthy values only a string has the method. *)
Definition or_empty_lower (v : json) : result string :=
  if truthy v then
    match v with
    | JStr s => Ok (Py.lower s)
    | _ => Raise (Error "AttributeError")
    end
  else Ok (Py.lower "").

End PyVal.

(* ================================================================= *)
(** ** The file system *)

Inductive kind : Type := KFile | KDir.

(** The entries below the root, in the order in which the operating system
    lists them.  The root itself is always a directory. *)
Definition filesystem := list (Path * kind).

Module FS.

Fixpoint path_eqb (p q : Path) : bool :=
  match p, q with
  | [], [] => true
  | a :: p', b :: q' => String.eqb a b && path_eqb p' q'
  | _, _ => false
  end.

Fixpoint find (fs : filesystem) (p : Path) : option kind :=
  match fs with
  | [] => None
  | (q, k) :: rest => if path_eqb p q then Some k else find rest p
  end.

Definition lookup (fs : filesystem) (p : Path) : option kind :=
  match p with
  | [] => Some KDir
  | _ => find fs p
  end.

(** [p.exists()], [p.is_file()], [p.is_dir()]. *)
Definition exists_ (fs : filesystem) (p : Path) : bool :=
  match lookup fs p with Some _ => true | None => false end.

Definition is_file (fs : filesystem) (p : Path) : bool :=
  match lookup fs p with Some KFile => true | _ => false end.

Definition is_dir (fs : filesystem) (p : Path) : bool :=
  match lookup fs p with Some KDir => true | _ => false end.

(** [q] relative to [p], when [q] lies at or below [p]. *)
Fixpoint relative_to (p q : Path) : option Path :=
  match p, q with
  | [], _ => Some q
  | a :: p', b :: q' => if String.eqb a b then relative_to p' q' else None
  | _ :: _, [] => None
  end.

Definition is_child (p q : Path) : bool :=
  match relative_to p q with Some [_] => true | _ => false end.

Definition is_below (p q : Path) : bool :=
  match relative_to p q with Some (_ :: _) => true | _ => false end.

(** [p.iterdir()]: the entries directly in [p]. *)
Definition iterdir (fs : filesystem) (p : Path) : list Path :=
  filter (is_child p) (map fst fs).

(** [p.rglob("*")]: every entry below [p], at any depth. *)
Definition rglob (fs : filesystem) (p : Path) : list Path :=
  filter (is_below p) (map fst fs).

(** [p.mkdir(parents=True, exist_ok=True)]: every missing directory on the
    way to [p] is created; a file in the way is an error. *)
Fixpoint mkdir_from (fs : filesystem) (done : Path) (todo : list string)
  : option filesystem :=
  match todo with
  | [] => Some fs
  | n :: rest =>
      let d := done ++ [n] in
      match find fs d with
      | Some KFile => None
      | Some KDir => mkdir_from fs d rest
      | None => mkdir_from (fs ++ [(d, KDir)]) d rest
      end
  end.

Definition mkdir_p (fs : filesystem) (p : Path) : option filesystem :=
  mkdir_from fs [] p.

(** No path is listed twice. *)
Definition wf (fs : filesystem) : Prop := NoDup (map fst fs).

End FS.

(* ================================================================= *)
(** ** State, effects and the environment *)

(** What a run does that can be observed from outside. *)
Inductive event : Type :=
| EPrint (line : string)                     (* print(line) *)
| EInput (prompt : string)                   (* input(prompt): the prompt shown *)
| EScan (dir : Path) (recursive : bool)      (* iterdir() / rglob("*") *)
| EProbe (cmd : list string)                 (* ffprobe started *)
| EMkdir (dir : Path)                        (* mkdir(parents, exist_ok) *)
| EFfmpeg (cmd : list string).               (* ffmpeg started *)

Record state : Type := mkState {
  fs : filesystem;
  stdin : list string;
  trace : list event
}.

(** The outcome of [subprocess.check_output(cmd, text=True)] followed by
    [json.loads]. *)
Inductive probe_outcome : Type :=
| ProbeFailed                (* the process could not run or exited non-zero *)
| ProbeMalformed             (* the output is not JSON *)
| ProbeJson (data : json).

(** The collaborators outside the repository. *)
Record env : Type := mkEnv {
  which : string -> bool;                     (* shutil.which(cmd) is not None *)
  ffprobe : list string -> filesystem -> probe_outcome;
  ffmpeg : list string -> filesystem -> Z * filesystem;  (* return code, effect *)
  int_of_str : string -> option Z             (* int(s) on a string *)
}.

Definition M (A : Type) : Type := state -> result A * state.

Definition ret {A} (a : A) : M A := fun st => (Ok a, st).

Definition bind {A B} (m : M A) (k : A -> M B) : M B :=
  fun st =>
    match m st with
    | (Ok a, st') => k a st'
    | (Raise e, st') => (Raise e, st')
    end.

Definition raise {A} (e : exn) : M A := fun st => (Raise e, st).

Definition lift {A} (r : result A) : M A := fun st => (r, st).

Notation "x <- c1 ;; c2" := (bind c1 (fun x => c2))
  (at level 61, c1 at next level, right associativity).
Notation "c1 ;;; c2" := (bind c1 (fun _ => c2))
  (at level 61, right associativity).

(** [try: body except Exception: handler]. *)
Definition try_except {A} (body : M A) (handler : M A) : M A :=
  fun st =>
    match body st with
    | (Raise (Error _), st') => handler st'
    | r => r
    end.

Definition emit (e : event) : M unit :=
  fun st => (Ok tt, mkState (fs st) (stdin st) (trace st ++ [e])).

Definition print (line : string) : M unit := emit (EPrint line).

Definition get_fs : M filesystem := fun st => (Ok (fs st), st).

Definition set_fs (f : filesystem) : M unit :=
  fun st => (Ok tt, mkState f (stdin st) (trace st)).

(** [for x in xs: body(x)], where [continue] ends [body] normally. *)
Fixpoint for_each {A} (xs : list A) (body : A -> M unit) : M unit :=
  match xs with
  | [] => ret tt
  | x :: rest => body x ;;; for_each rest body
  end.

(** [VIDEO_EXTS]. *)
Definition VIDEO_EXTS : list string := [".mp4"; ".m4v"; ".mov"].

(** [p.suffix.lower() in VIDEO_EXTS]. *)
Definition video_ext (p : Path) : bool :=
  Py.mem (Py.lower (PathLib.suffix p)) VIDEO_EXTS.


(* ================================================================= *)
(** ** [src/mp4_to_mp3/cli.py] *)

Module Cli.

(** [ProbeInfo]: the dataclass; [None] is [JNull] for the codec name, which
    is stored as ffprobe gave it. *)
Record ProbeInfo : Type := mkProbeInfo {
  codec_name : json;
  bit_rate : option Z;
  channels : option Z;
  sample_rate : option Z
}.

(** [ProbeInfo()]. *)
Definition ProbeInfo_none : ProbeInfo := mkProbeInfo JNull None None None.

(** The parsed command line.  The paths are as [expanduser().resolve()]
    returns them; [arg_out] is [None] when [--out] is absent or empty. *)
Record Args : Type := mkArgs {
  arg_input : Path;
  arg_out : option Path;
  arg_mode : string;          (* argparse: auto, cbr, vbr or copy *)
  arg_bitrate : string;
  arg_vbr_q : Z;
  arg_recursive : bool;
  arg_overwrite : bool;
  arg_no_prompt : bool
}.

Section Program.

Variable E : env.

Definition which_or_exit (cmd install_hint : string) : M unit :=
  if which E cmd then ret tt
  else raise (SystemExit (cmd ^^ " not found. " ^^ install_hint)).

Definition ensure_tools : M unit :=
  which_or_exit "ffmpeg" "Install via Homebrew: brew install ffmpeg" ;;;
  which_or_exit "ffprobe" "Install via Homebrew: brew install ffmpeg".

(** The [while True] loop of [ask_choice], by recursion on the lines still
    to be read: each round consumes one. *)
Fixpoint ask_choice_loop (question : string) (keys : list string)
    (default_key : string) (lines : list string) (tr : list event)
  : result string * list string * list event :=
  let tr1 := tr ++ [EInput question] in
  match lines with
  | [] => (Raise (Error "EOFError"), [], tr1)
  | line :: rest =>
      let raw := Py.lower (Py.strip line) in
      if String.eqb raw "" then (Ok default_key, rest, tr1)
      else if Py.mem raw keys then (Ok raw, rest, tr1)
      else ask_choice_loop question keys default_key rest
             (tr1 ++ [EPrint ("Please enter one of: " ^^ Py.join ", " keys
                              ^^ " (or press Enter for default).")])
  end.

Definition ask_choice (prompt : string) (choices : list (string * string))
    (default_key : string) : M string :=
  let options := Py.join "/" (map (fun kv => fst kv ^^ "=" ^^ snd kv) choices) in
  match Py.assoc default_key choices with
  | None => raise (Error "KeyError")
  | Some default_label =>
      fun st =>
        let '(r, lines, tr) :=
          ask_choice_loop
            (prompt ^^ " (" ^^ options ^^ ") [Default: " ^^ default_key ^^ "="
                    ^^ default_label ^^ "]: ")
            (map fst choices) default_key (stdin st) (trace st) in
        (r, mkState (fs st) lines tr)
  end.

Fixpoint ask_yes_no_loop (question : string) (default : bool)
    (lines : list string) (tr : list event)
  : result bool * list string * list event :=
  let tr1 := tr ++ [EInput question] in
  match lines with
  | [] => (Raise (Error "EOFError"), [], tr1)
  | line :: rest =>
      let raw := Py.lower (Py.strip line) in
      if String.eqb raw "" then (Ok default, rest, tr1)
      else if Py.mem raw ["y"; "yes"; "j"; "ja"] then (Ok true, rest, tr1)
      else if Py.mem raw ["n"; "no"; "nein"] then (Ok false, rest, tr1)
      else ask_yes_no_loop question default rest
             (tr1 ++ [EPrint "Please enter y/n (or press Enter for default)."])
  end.

Definition ask_yes_no (prompt : string) (default : bool) : M bool :=
  let d := if default then "y" else "n" in
  fun st =>
    let '(r, lines, tr) :=
      ask_yes_no_loop (prompt ^^ " (y/n) [Default: " ^^ d ^^ "]: ") default
        (stdin st) (trace st) in
    (r, mkState (fs st) lines tr).

(** What the generator [iter_inputs] yields on the file system [f]. *)
Definition iter_inputs_on (f : filesystem) (in_path : Path) (recursive : bool)
  : list Path :=
  if FS.is_dir f in_path then
    if recursive then
      filter (fun p => FS.is_file f p && video_ext p) (FS.rglob f in_path)
    else
      filter (fun p => FS.is_file f p && video_ext p) (FS.iterdir f in_path)
  else [in_path].

Definition iter_inputs (in_path : Path) (recursive : bool) : M (list Path) :=
  f <- get_fs ;;
  (if FS.is_dir f in_path then emit (EScan in_path recursive) else ret tt) ;;;
  ret (iter_inputs_on f in_path recursive).

(** [subprocess.check_output(cmd, text=True)] and [json.loads] of its
    output, with the exceptions they raise. *)
Definition check_output_json (cmd : list string) : M json :=
  emit (EProbe cmd) ;;;
  f <- get_fs ;;
  match ffprobe E cmd f with
  | ProbeFailed => raise (Error "CalledProcessError")
  | ProbeMalformed => raise (Error "JSONDecodeError")
  | ProbeJson data => ret data
  end.

(** [int(s[k]) if s.get(k) else None]. *)
Definition opt_int (s : json) (k : string) : result (option Z) :=
  v <~ PyVal.get s k ;;
  if PyVal.truthy v then
    x <~ PyVal.getitem s k ;;
    n <~ PyVal.to_int (int_of_str E) x ;;
    Ok (Some n)
  else Ok None.

Definition info_cmd (path : Path) : list string :=
  ["ffprobe"; "-v"; "error"; "-select_streams"; "a:0"; "-show_entries";
   "stream=codec_name,bit_rate,channels,sample_rate"; "-of"; "json";
   PathLib.str path].

(** The [try] block of [ffprobe_audio_info] below [json.loads]. *)
Definition first_stream_info (data : json) : result ProbeInfo :=
  got <~ PyVal.get data "streams" ;;
  let streams := if PyVal.truthy got then got else JArr [] in
  if negb (PyVal.truthy streams) then Ok ProbeInfo_none
  else
    s <~ PyVal.item0 streams ;;
    c <~ PyVal.get s "codec_name" ;;
    b <~ opt_int s "bit_rate" ;;
    ch <~ opt_int s "channels" ;;
    sr <~ opt_int s "sample_rate" ;;
    Ok (mkProbeInfo c b ch sr).

Definition ffprobe_audio_info (path : Path) : M ProbeInfo :=
  ensure_tools ;;;
  try_except
    (data <- check_output_json (info_cmd path) ;;
     lift (first_stream_info data))
    (ret ProbeInfo_none).

(** The decision of [autodetect_mode] on the normalised codec name. *)
Definition mode_of_codec (codec : string) : string :=
  if String.eqb codec "mp3" then "copy"
  else if negb (String.eqb codec "") then "vbr"
  else "vbr".

Definition autodetect_mode (path : Path) : M string :=
  info <- ffprobe_audio_info path ;;
  codec <- lift (PyVal.or_empty_lower (codec_name info)) ;;
  ret (mode_of_codec codec).

Definition audio_cmd (path : Path) : list string :=
  ["ffprobe"; "-v"; "error"; "-select_streams"; "a"; "-show_entries";
   "stream=index"; "-of"; "json"; PathLib.str path].

(** [bool(data.get("streams"))]. *)
Definition any_stream (data : json) : result bool :=
  got <~ PyVal.get data "streams" ;;
  Ok (PyVal.truthy got).

Definition has_audio_stream (path : Path) : M bool :=
  ensure_tools ;;;
  try_except
    (data <- check_output_json (audio_cmd path) ;;
     lift (any_stream data))
    (ret false).

(** The arguments chosen by the mode, or the exit for an unknown one. *)
Definition mode_args (mode bitrate : string) (vbr_q : Z) : result (list string) :=
  if String.eqb mode "copy" then Ok ["-c:a"; "copy"]
  else if String.eqb mode "cbr" then Ok (["-c:a"; "libmp3lame"] ++ ["-b:a"; bitrate])
  else if String.eqb mode "vbr" then
    Ok (["-c:a"; "libmp3lame"] ++ ["-q:a"; Py.str_of_int vbr_q])
  else Raise (SystemExit ("Unknown mode: " ^^ mode)).

(** The command line of [run_ffmpeg], as the list [cmd] is built up. *)
Definition build_cmd (input_path output_path : Path) (overwrite : bool)
    (mode bitrate : string) (vbr_q : Z) : result (list string) :=
  let cmd := ["ffmpeg"; "-hide_banner"; "-nostats"; "-i"; PathLib.str input_path;
              "-vn"; "-map"; "0:a:0"; "-map_metadata"; "0"] in
  match mode_args mode bitrate vbr_q with
  | Ok extra =>
      Ok (((cmd ++ extra) ++ [if overwrite then "-y" else "-n"])
            ++ [PathLib.str output_path])
  | Raise e => Raise e
  end.

Definition mkdir (dir : Path) : M unit :=
  emit (EMkdir dir) ;;;
  f <- get_fs ;;
  match FS.mkdir_p f dir with
  | Some f' => set_fs f'
  | None => raise (Error "FileExistsError")
  end.

(** [subprocess.run(cmd).returncode]. *)
Definition subprocess_run (cmd : list string) : M Z :=
  emit (EFfmpeg cmd) ;;;
  f <- get_fs ;;
  set_fs (snd (ffmpeg E cmd f)) ;;;
  ret (fst (ffmpeg E cmd f)).

Definition run_ffmpeg (input_path output_path : Path) (overwrite : bool)
    (mode bitrate : string) (vbr_q : Z) : M unit :=
  ensure_tools ;;;
  mkdir (PathLib.parent output_path) ;;;
  cmd <- lift (build_cmd input_path output_path overwrite mode bitrate vbr_q) ;;
  returncode <- subprocess_run cmd ;;
  if negb (returncode =? 0)%Z
  then raise (SystemExit ("Conversion failed: " ^^ PathLib.str input_path))
  else ret tt.

(** [out_file] of the loop of [main]. *)
Definition out_file_of (out_dir : option Path) (f : Path) : Path :=
  let target_dir := match out_dir with Some d => d | None => PathLib.parent f end in
  PathLib.joinpath target_dir (PathLib.stem f ^^ ".mp3").

(** [file_mode] of the loop of [main]. *)
Definition resolve_mode (mode : string) (f : Path) : M string :=
  if String.eqb mode "auto" then autodetect_mode f else ret mode.

(** The body of the loop of [main]. *)
Definition convert_file (args : Args) (mode : string) (f : Path) : M unit :=
  let out_file := out_file_of (arg_out args) f in
  cur <- get_fs ;;
  if FS.exists_ cur out_file && negb (arg_overwrite args) then
    print ("Skip (exists): " ^^ PathLib.str out_file)
  else
    file_mode <- resolve_mode mode f ;;
    print ("Converting: " ^^ PathLib.str f ^^ " -> " ^^ PathLib.str out_file
             ^^ " [" ^^ Py.upper file_mode ^^ "]") ;;;
    has <- has_audio_stream f ;;
    if negb has then print "  No audio stream found, skipping."
    else
      run_ffmpeg f out_file (arg_overwrite args) file_mode
        (arg_bitrate args) (arg_vbr_q args) ;;;
      print "OK".

(** [args.mode == "vbr" and not (0 <= args.vbr_q <= 9)]. *)
Definition vbr_q_rejected (args : Args) : bool :=
  String.eqb (arg_mode args) "vbr"
  && negb ((0 <=? arg_vbr_q args)%Z && (arg_vbr_q args <=? 9)%Z).

(** [files] of [main]: the sorted inputs, filtered once more. *)
Definition candidate_files (f : filesystem) (found : list Path) : list Path :=
  filter (fun p => FS.is_file f p && video_ext p) (sorted found).

(** The mode after the optional question of [main]. *)
Definition choose_mode (args : Args) : M string :=
  if String.eqb (arg_mode args) "auto" then
    if arg_no_prompt args then ret "auto"
    else
      choice <- ask_choice "Encoding mode? (auto detects via ffprobe)"
                  [("a", "AUTO"); ("c", "CBR"); ("v", "VBR")] "a" ;;
      match Py.assoc choice [("a", "auto"); ("c", "cbr"); ("v", "vbr")] with
      | Some m => ret m
      | None => raise (Error "KeyError")
      end
  else ret (arg_mode args).

(** [main] up to its loop: the checks, the questions and the candidate
    files; the result is [files] and [mode]. *)
Definition prepare (args : Args) : M (list Path * string) :=
  let in_path := arg_input args in
  f0 <- get_fs ;;
  if negb (FS.exists_ f0 in_path)
  then raise (SystemExit ("Path not found: " ^^ PathLib.str in_path))
  else
  if vbr_q_rejected args
  then raise (SystemExit "--vbr-q must be between 0 and 9.")
  else
  recursive <-
    (if FS.is_dir f0 in_path && negb (arg_recursive args) && negb (arg_no_prompt args)
     then ask_yes_no "Scan subfolders recursively?" true
     else ret (arg_recursive args)) ;;
  found <- iter_inputs in_path recursive ;;
  f1 <- get_fs ;;
  let files := candidate_files f1 found in
  match files with
  | [] => raise (SystemExit ("No MP4/M4V/MOV files found in: " ^^ PathLib.str in_path))
  | _ :: _ =>
      mode <- choose_mode args ;;
      ret (files, mode)
  end.

Definition main (args : Args) : M unit :=
  plan <- prepare args ;;
  for_each (fst plan) (convert_file args (snd plan)).

End Program.

End Cli.


(* ================================================================= *)
(** ** [src/mp4_to_mp3.py] *)

Module Legacy.

(** The parsed command line; [arg_mode] is [None] when [--mode] is absent,
    and argparse admits only cbr and vbr. *)
Record Args : Type := mkArgs {
  arg_input : Path;
  arg_out : option Path;
  arg_overwrite : bool;
  arg_mode : option string;
  arg_bitrate : string;
  arg_vbr_q : Z;
  arg_recursive : bool
}.

Section Program.

Variable E : env.

Fixpoint ask_choice_loop (question : string) (keys : list string)
    (default_key : string) (lines : list string) (tr : list event)
  : result string * list string * list event :=
  let tr1 := tr ++ [EInput question] in
  match lines with
  | [] => (Raise (Error "EOFError"), [], tr1)
  | line :: rest =>
      let raw := Py.lower (Py.strip line) in
      if String.eqb raw "" then (Ok default_key, rest, tr1)
      else if Py.mem raw keys then (Ok raw, rest, tr1)
      else ask_choice_loop question keys default_key rest
             (tr1 ++ [EPrint ("Bitte eingeben: " ^^ Py.join ", " keys
                              ^^ " (oder Enter für Default).")])
  end.

Definition ask_choice (prompt : string) (choices : list (string * string))
    (default_key : string) : M string :=
  let options := Py.join "/" (map (fun kv => fst kv ^^ "=" ^^ snd kv) choices) in
  match Py.assoc default_key choices with
  | None => raise (Error "KeyError")
  | Some default_label =>
      fun st =>
        let '(r, lines, tr) :=
          ask_choice_loop
            (prompt ^^ " (" ^^ options ^^ ") [Default: " ^^ default_key ^^ "="
                    ^^ default_label ^^ "]: ")
            (map fst choices) default_key (stdin st) (trace st) in
        (r, mkState (fs st) lines tr)
  end.

Fixpoint ask_yes_no_loop (question : string) (default : bool)
    (lines : list string) (tr : list event)
  : result bool * list string * list event :=
  let tr1 := tr ++ [EInput question] in
  match lines with
  | [] => (Raise (Error "EOFError"), [], tr1)
  | line :: rest =>
      let raw := Py.lower (Py.strip line) in
      if String.eqb raw "" then (Ok default, rest, tr1)
      else if Py.mem raw ["y"; "yes"; "j"; "ja"] then (Ok true, rest, tr1)
      else if Py.mem raw ["n"; "no"; "nein"] then (Ok false, rest, tr1)
      else ask_yes_no_loop question default rest
             (tr1 ++ [EPrint "Bitte y/n eingeben (oder Enter für Default)."])
  end.

Definition ask_yes_no (prompt : string) (default : bool) : M bool :=
  let d := if default then "y" else "n" in
  fun st =>
    let '(r, lines, tr) :=
      ask_yes_no_loop (prompt ^^ " (y/n) [Default: " ^^ d ^^ "]: ") default
        (stdin st) (trace st) in
    (r, mkState (fs st) lines tr).

Definition ensure_ffmpeg : M unit :=
  if which E "ffmpeg" then ret tt
  else raise (SystemExit "ffmpeg nicht gefunden. Installiere es mit: brew install ffmpeg").

(** The command line of [run_ffmpeg]: every mode but cbr takes the branch of
    the quality level. *)
Definition build_cmd (input_path output_path : Path) (overwrite : bool)
    (mode bitrate : string) (vbr_q : Z) : list string :=
  let cmd := ["ffmpeg"; "-hide_banner"; "-nostats"; "-i"; PathLib.str input_path;
              "-vn"; "-c:a"; "libmp3lame"; "-map_metadata"; "0"] in
  let cmd := if String.eqb mode "cbr"
             then cmd ++ ["-b:a"; bitrate]
             else cmd ++ ["-q:a"; Py.str_of_int vbr_q] in
  (cmd ++ [if overwrite then "-y" else "-n"]) ++ [PathLib.str output_path].

Definition mkdir (dir : Path) : M unit :=
  emit (EMkdir dir) ;;;
  f <- get_fs ;;
  match FS.mkdir_p f dir with
  | Some f' => set_fs f'
  | None => raise (Error "FileExistsError")
  end.

Definition subprocess_run (cmd : list string) : M Z :=
  emit (EFfmpeg cmd) ;;;
  f <- get_fs ;;
  set_fs (snd (ffmpeg E cmd f)) ;;;
  ret (fst (ffmpeg E cmd f)).

Definition run_ffmpeg (input_path output_path : Path) (overwrite : bool)
    (mode bitrate : string) (vbr_q : Z) : M unit :=
  ensure_ffmpeg ;;;
  mkdir (PathLib.parent output_path) ;;;
  returncode <- subprocess_run
                  (build_cmd input_path output_path overwrite mode bitrate vbr_q) ;;
  if negb (returncode =? 0)%Z
  then raise (SystemExit ("Konvertierung fehlgeschlagen: " ^^ PathLib.str input_path))
  else ret tt.

(** The recursive branch does not ask [is_file]; [main] does, afterwards. *)
Definition iter_inputs_on (f : filesystem) (in_path : Path) (recursive : bool)
  : list Path :=
  if FS.is_dir f in_path then
    if recursive then
      filter (fun p => video_ext p) (FS.rglob f in_path)
    else
      filter (fun p => FS.is_file f p && video_ext p) (FS.iterdir f in_path)
  else [in_path].

Definition iter_inputs (in_path : Path) (recursive : bool) : M (list Path) :=
  f <- get_fs ;;
  (if FS.is_dir f in_path then emit (EScan in_path recursive) else ret tt) ;;;
  ret (iter_inputs_on f in_path recursive).

Definition out_file_of (out_dir : option Path) (f : Path) : Path :=
  let target_dir := match out_dir with Some d => d | None => PathLib.parent f end in
  PathLib.joinpath target_dir (PathLib.stem f ^^ ".mp3").

(** The body of the loop of [main]. *)
Definition convert_file (args : Args) (mode : string) (f : Path) : M unit :=
  let out_file := out_file_of (arg_out args) f in
  cur <- get_fs ;;
  if FS.exists_ cur out_file && negb (arg_overwrite args) then
    print ("Überspringe (existiert): " ^^ PathLib.str out_file)
  else
    print ("Konvertiere: " ^^ PathLib.str f ^^ " -> " ^^ PathLib.str out_file
             ^^ " [" ^^ Py.upper mode ^^ "]") ;;;
    run_ffmpeg f out_file (arg_overwrite args) mode
      (arg_bitrate args) (arg_vbr_q args) ;;;
    print "OK".

(** The mode of the run: the flag, or the answer to the question. *)
Definition choose_mode (args : Args) : M string :=
  match arg_mode args with
  | Some m => ret m
  | None =>
      choice <- ask_choice "Willst du CBR oder VBR encoden?"
                  [("c", "CBR (feste Bitrate)"); ("v", "VBR (variable Bitrate)")]
                  "v" ;;
      ret (if String.eqb choice "c" then "cbr" else "vbr")
  end.

(** [mode == "vbr" and not (0 <= args.vbr_q <= 9)]. *)
Definition vbr_q_rejected (mode : string) (args : Args) : bool :=
  String.eqb mode "vbr"
  && negb ((0 <=? arg_vbr_q args)%Z && (arg_vbr_q args <=? 9)%Z).

Definition candidate_files (f : filesystem) (found : list Path) : list Path :=
  filter (fun p => FS.is_file f p && video_ext p) (sorted found).

(** [main] up to its loop: the check of the path, the questions, the check
    of the quality level and the candidate files; the result is [files] and
    [mode]. *)
Definition prepare (args : Args) : M (list Path * string) :=
  let in_path := arg_input args in
  f0 <- get_fs ;;
  if negb (FS.exists_ f0 in_path)
  then raise (SystemExit ("Pfad nicht gefunden: " ^^ PathLib.str in_path))
  else
  mode <- choose_mode args ;;
  recursive <-
    (if FS.is_dir f0 in_path && negb (arg_recursive args)
     then ask_yes_no "Soll ich Unterordner rekursiv durchsuchen?" true
     else ret (arg_recursive args)) ;;
  if vbr_q_rejected mode args
  then raise (SystemExit "--vbr-q muss zwischen 0 und 9 liegen.")
  else
  found <- iter_inputs in_path recursive ;;
  f1 <- get_fs ;;
  let files := candidate_files f1 found in
  match files with
  | [] => raise (SystemExit ("Keine MP4/M4V/MOV Dateien gefunden in: "
                               ^^ PathLib.str in_path))
  | _ :: _ => ret (files, mode)
  end.

Definition main (args : Args) : M unit :=
  plan <- prepare args ;;
  for_each (fst plan) (convert_file args (snd plan)).

End Program.

End Legacy.


(* ================================================================= *)
(** ** Auxiliary notions for the statements *)

(** Both tools are installed. *)
Definition tools_ok (E : env) : Prop :=
  which E "ffmpeg" = true /\ which E "ffprobe" = true.

(** The state after the events [evs] and nothing else. *)
Definition emitted (st : state) (evs : list event) : state :=
  mkState (fs st) (stdin st) (trace st ++ evs).

(** A computation that raises, if at all, an [Exception]. *)
Definition only_errors {A} (r : result A) : Prop :=
  match r with
  | Raise (SystemExit _) => False
  | _ => True
  end.

(** An event of the terminal only: nothing is scanned, probed, created or
    converted. *)
Definition terminal_event (e : event) : Prop :=
  match e with
  | EPrint _ | EInput _ => True
  | _ => False
  end.

(** What [ffprobe_audio_info] makes of the outcome of its probe. *)
Definition info_of_outcome (E : env) (o : probe_outcome) : Cli.ProbeInfo :=
  match o with
  | ProbeJson data =>
      match Cli.first_stream_info E data with
      | Ok info => info
      | Raise _ => Cli.ProbeInfo_none
      end
  | _ => Cli.ProbeInfo_none
  end.

(** What [has_audio_stream] makes of the outcome of its probe. *)
Definition audio_of_outcome (o : probe_outcome) : bool :=
  match o with
  | ProbeJson data =>
      match Cli.any_stream data with
      | Ok b => b
      | Raise _ => false
      end
  | _ => false
  end.

(** The probe reports no audio stream: an empty [streams] list, or none. *)
Definition zero_streams (data : json) : Prop :=
  exists fields, data = JObj fields /\
    (Py.assoc "streams" fields = Some (JArr []) \/ Py.assoc "streams" fields = None).

(** The codec name is absent or a string, as the dataclass declares it. *)
Definition text_or_none (v : json) : Prop :=
  match v with
  | JNull | JStr _ => True
  | _ => False
  end.

(** The codec name as [autodetect_mode] compares it: lower-cased, and empty
    when there is none. *)
Definition probed_codec (info : Cli.ProbeInfo) : string :=
  match Cli.codec_name info with
  | JStr s => Py.lower s
  | _ => ""
  end.

(** Where a path lies relative to the scanned directory: below it, and
    directly in it unless the scan is recursive. *)
Definition contained (in_path : Path) (recursive : bool) (p : Path) : Prop :=
  exists n rest, p = in_path ++ n :: rest /\ (recursive = false -> rest = []).

(** The Candidate File Set of the specification, as a property of a list of
    files: its members, its order, and the absence of duplicates. *)
Definition candidate_set (f : filesystem) (in_path : Path) (recursive : bool)
    (files : list Path) : Prop :=
  (forall p, In p files <->
             FS.is_file f p = true
             /\ In (Py.lower (PathLib.suffix p)) [".mp4"; ".m4v"; ".mov"]
             /\ contained in_path recursive p)
  /\ StronglySorted PathLib.le files
  /\ NoDup files.

(** From [st] to [st'] nothing happened but prompts and prints. *)
Definition terminal_only (st st' : state) : Prop :=
  fs st' = fs st /\
  exists evs, trace st' = trace st ++ evs /\ Forall terminal_event evs.

(* ================================================================= *)
(** ** Concrete worlds *)

Module Sample.

Definition digit (c : ascii) : option Z :=
  let n := nat_of_ascii c in
  if (48 <=? n)%nat && (n <=? 57)%nat then Some (Z.of_nat (n - 48)) else None.

Fixpoint decimal_from (acc : Z) (s : string) : option Z :=
  match s with
  | EmptyString => Some acc
  | String c r =>
      match digit c with
      | Some d => decimal_from (10 * acc + d)%Z r
      | None => None
      end
  end.

(** [int(s)] on a string of decimal digits. *)
Definition decimal (s : string) : option Z :=
  match s with
  | EmptyString => None
  | _ => decimal_from 0%Z s
  end.

(** The answer of ffprobe for a file whose first audio stream is [codec]. *)
Definition one_stream (codec : string) : json :=
  JObj [("streams",
         JArr [JObj [("codec_name", JStr codec); ("bit_rate", JStr "128000");
                     ("channels", JNum 2); ("sample_rate", JStr "44100")]])].

(** The answer of ffprobe to the question for the audio streams: one. *)
Definition indexed_stream : json :=
  JObj [("streams", JArr [JObj [("index", JNum 1)]])].

(** The answer of ffprobe for a file without audio. *)
Definition no_stream : json := JObj [("streams", JArr [])].

(** Both tools installed; ffprobe answers [info] to the probe of the first
    audio stream and [audio] to the probe of all audio streams; ffmpeg
    returns [rc] and leaves the entries of the file system as they are. *)
Definition world (info audio : probe_outcome) (rc : Z) : env :=
  mkEnv (fun _ => true)
        (fun cmd _ => if Py.mem "a:0" cmd then info else audio)
        (fun _ f => (rc, f))
        decimal.

Definition one_file : filesystem := [(["video.mp4"], KFile)].

Definition notes_only : filesystem := [(["notes.txt"], KFile)].

Definition two_files : filesystem :=
  [(["d"], KDir); (["d"; "b.mp4"], KFile); (["d"; "a.mp4"], KFile)].

Definition converted : filesystem :=
  [(["video.mp4"], KFile); (["video.mp3"], KFile)].

Definition tree : filesystem :=
  [(["d"], KDir); (["d"; "b.mov"], KFile); (["d"; "a.mp4"], KFile);
   (["d"; "sub"], KDir); (["d"; "sub"; "c.MP4"], KFile);
   (["d"; "notes.txt"], KFile)].

Definition start (f : filesystem) : state := mkState f [] [].

End Sample.

(* ================================================================= *)
(** ** Notions for the further properties *)

(** From [st] to [st'] every new event satisfies [P]; the pending input is
    as it was when [keep_input] is set, the file system when [keep_fs] is. *)
Definition advances (P : event -> Prop) (keep_input keep_fs : bool)
    (st st' : state) : Prop :=
  (keep_input = true -> stdin st' = stdin st)
  /\ (keep_fs = true -> fs st' = fs st)
  /\ exists evs, trace st' = trace st ++ evs /\ Forall P evs.

(** Every run of [m] relates its states by [R]; a value it returns
    satisfies [Qok], an exception it raises [Qexn]. *)
Definition triple {A} (R : state -> state -> Prop) (m : M A)
    (Qok : A -> Prop) (Qexn : exn -> Prop) : Prop :=
  forall st r st', m st = (r, st') ->
    R st st' /\ match r with Ok a => Qok a | Raise e => Qexn e end.

Definition not_input (e : event) : Prop :=
  match e with EInput _ => False | _ => True end.


(** Prompts, prints and the scan of a directory: no process is started and
    nothing is created. *)
Definition no_process (e : event) : Prop :=
  match e with
  | EPrint _ | EInput _ | EScan _ _ => True
  | _ => False
  end.




(** The modes argparse admits for [cli.py]. *)
Definition cli_mode (m : string) : Prop :=
  m = "auto" \/ m = "cbr" \/ m = "vbr" \/ m = "copy".

(** The ways in which the preparation of [cli.py]'s [main] ends a run. *)
Inductive cli_prepare_exit (args : Cli.Args) : exn -> Prop :=
| cli_exit_no_path :
    cli_prepare_exit args
      (SystemExit ("Path not found: " ^^ PathLib.str (Cli.arg_input args)))
| cli_exit_vbr_q :
    cli_prepare_exit args (SystemExit "--vbr-q must be between 0 and 9.")
| cli_exit_no_files :
    cli_prepare_exit args
      (SystemExit ("No MP4/M4V/MOV files found in: "
                     ^^ PathLib.str (Cli.arg_input args)))
| cli_exit_eof :
    cli_prepare_exit args (Error "EOFError").

(** The ways in which the loop of [cli.py]'s [main] ends a run. *)
Inductive cli_loop_exit : exn -> Prop :=
| cli_exit_ffmpeg_missing :
    cli_loop_exit
      (SystemExit "ffmpeg not found. Install via Homebrew: brew install ffmpeg")
| cli_exit_ffprobe_missing :
    cli_loop_exit
      (SystemExit "ffprobe not found. Install via Homebrew: brew install ffmpeg")
| cli_exit_codec_name :
    cli_loop_exit (Error "AttributeError")
| cli_exit_mkdir :
    cli_loop_exit (Error "FileExistsError")
| cli_exit_conversion (f : Path) :
    cli_loop_exit (SystemExit ("Conversion failed: " ^^ PathLib.str f)).

(** The ways in which the earlier script ends a run. *)
Inductive legacy_exit (args : Legacy.Args) : exn -> Prop :=
| legacy_exit_no_path :
    legacy_exit args
      (SystemExit ("Pfad nicht gefunden: " ^^ PathLib.str (Legacy.arg_input args)))
| legacy_exit_eof :
    legacy_exit args (Error "EOFError")
| legacy_exit_vbr_q :
    legacy_exit args (SystemExit "--vbr-q muss zwischen 0 und 9 liegen.")
| legacy_exit_no_files :
    legacy_exit args
      (SystemExit ("Keine MP4/M4V/MOV Dateien gefunden in: "
                     ^^ PathLib.str (Legacy.arg_input args)))
| legacy_exit_ffmpeg_missing :
    legacy_exit args
      (SystemExit "ffmpeg nicht gefunden. Installiere es mit: brew install ffmpeg")
| legacy_exit_mkdir :
    legacy_exit args (Error "FileExistsError")
| legacy_exit_conversion (f : Path) :
    legacy_exit args
      (SystemExit ("Konvertierung fehlgeschlagen: " ^^ PathLib.str f)).

(** What a run of [cli.py] may do at its questions: nothing, when
    [--no-prompt] is given; otherwise it reads input and writes to the
    terminal. *)
Definition prompting_allowed (P : event -> Prop) (ki : bool) (args : Cli.Args)
  : Prop :=
  Cli.arg_no_prompt args = true
  \/ (ki = false /\ forall e, terminal_event e -> P e).

(** What [main] has established when its loop starts. *)
Definition cli_plan_ok (args : Cli.Args) (plan : list Path * string) : Prop :=
  fst plan <> []
  /\ cli_mode (snd plan)
  /\ (snd plan = "copy" -> Cli.arg_mode args = "copy")
  /\ (Cli.arg_mode args <> "auto" -> snd plan = Cli.arg_mode args)
  /\ (Cli.arg_mode args = "vbr" -> (0 <= Cli.arg_vbr_q args <= 9)%Z).

(** The modes argparse admits for the earlier script, none included. *)
Definition legacy_mode_flag (m : option string) : Prop :=
  m = None \/ m = Some "cbr" \/ m = Some "vbr".

(** What the earlier script has established when its loop starts. *)
Definition legacy_plan_ok (args : Legacy.Args) (plan : list Path * string) : Prop :=
  fst plan <> []
  /\ (snd plan = "cbr" \/ snd plan = "vbr")
  /\ (snd plan = "vbr" -> (0 <= Legacy.arg_vbr_q args <= 9)%Z).

(** Worlds for the further properties. *)
Module Scenario.

(** Both tools installed; every probe answers with one audio stream of the
    codec aac; ffmpeg succeeds and writes the file [out]. *)
Definition writer (out : Path) : env :=
  mkEnv (fun _ => true)
        (fun cmd _ => if Py.mem "a:0" cmd
                      then ProbeJson (Sample.one_stream "aac")
                      else ProbeJson Sample.indexed_stream)
        (fun _ f => (0%Z, f ++ [(out, KFile)]))
        Sample.decimal.

(** As [Sample.world], with ffprobe missing. *)
Definition no_ffprobe : env :=
  mkEnv (fun cmd => String.eqb cmd "ffmpeg")
        (fun _ _ => ProbeFailed)
        (fun _ f => (0%Z, f))
        Sample.decimal.

(** Two files of the same stem in two folders, and a folder for the output. *)
Definition same_stem : filesystem :=
  [(["in"], KDir); (["in"; "a"], KDir); (["in"; "b"], KDir);
   (["in"; "a"; "talk.mp4"], KFile); (["in"; "b"; "talk.mov"], KFile);
   (["out"], KDir)].

(** A directory named like a video, with a video in it. *)
Definition video_named_dir : filesystem :=
  [(["d"], KDir); (["d"; "clips.mp4"], KDir); (["d"; "clips.mp4"; "one.mov"], KFile)].

(** A stream whose bitrate ffprobe could not tell. *)
Definition stream_without_bitrate : json :=
  JObj [("streams",
         JArr [JObj [("codec_name", JStr "mp3"); ("bit_rate", JStr "N/A")]])].

(** A stream whose codec name is a number. *)
Definition stream_with_odd_codec : json :=
  JObj [("streams", JArr [JObj [("codec_name", JNum 3)]])].

End Scenario.

(* ================================================================= *)
(** ** The order of paths and [sorted] *)

Module StringFacts := OrderedTypeFacts String_as_OT.

Lemma string_compare_eq (x y : string) : String_as_OT.compare x y = Eq <-> x = y.
Proof.
  destruct (String_as_OT.compare_spec x y) as [H|H|H]; split; intro E;
    try discriminate; try assumption; try reflexivity; subst.
  - exfalso. exact (StrictOrder_Irreflexive _ H).
  - exfalso. exact (StrictOrder_Irreflexive _ H).
Qed.

Lemma string_compare_antisym (x y : string) :
  String_as_OT.compare y x = CompOpp (String_as_OT.compare x y).
Proof. apply StringFacts.compare_antisym. Qed.

Lemma string_compare_trans (x y z : string) (c : comparison) :
  String_as_OT.compare x y = c -> String_as_OT.compare y z = c ->
  String_as_OT.compare x z = c.
Proof.
  destruct c; intros H1 H2.
  - apply string_compare_eq in H1, H2. subst. now apply string_compare_eq.
  - exact (StrictOrder_Transitive (R := String_as_OT.lt) x y z H1 H2).
  - rewrite string_compare_antisym in H1, H2.
    rewrite string_compare_antisym.
    apply (f_equal CompOpp) in H1, H2. rewrite CompOpp_involutive in H1, H2.
    simpl in H1, H2.
    now rewrite (StrictOrder_Transitive (R := String_as_OT.lt) z y x H2 H1).
Qed.

Lemma path_compare_antisym (p q : Path) :
  PathLib.compare q p = CompOpp (PathLib.compare p q).
Proof.
  apply list_compare_antisym.
  - apply string_compare_eq.
  - apply string_compare_antisym.
Qed.

Lemma path_compare_eq (p q : Path) : PathLib.compare p q = Eq <-> p = q.
Proof. apply list_compare_refl, string_compare_eq. Qed.

Lemma path_compare_trans (p q r : Path) (c : comparison) :
  PathLib.compare p q = c -> PathLib.compare q r = c -> PathLib.compare p r = c.
Proof.
  apply list_compare_trans.
  - apply string_compare_eq.
  - intros x y z c'. apply string_compare_trans.
  - apply string_compare_antisym.
Qed.

Lemma path_leb_total (p q : Path) :
  PathLib.leb p q = true \/ PathLib.leb q p = true.
Proof.
  unfold PathLib.leb. rewrite (path_compare_antisym p q).
  destruct (PathLib.compare p q); simpl; auto.
Qed.

Lemma path_le_trans (p q r : Path) :
  PathLib.le p q -> PathLib.le q r -> PathLib.le p r.
Proof.
  unfold PathLib.le, PathLib.leb.
  destruct (PathLib.compare p q) eqn:E1; try discriminate;
    destruct (PathLib.compare q r) eqn:E2; try discriminate; intros _ _.
  - now rewrite (path_compare_trans p q r Eq E1 E2).
  - apply path_compare_eq in E1. subst. now rewrite E2.
  - apply path_compare_eq in E2. subst. now rewrite E1.
  - now rewrite (path_compare_trans p q r Lt E1 E2).
Qed.

Lemma path_le_antisym (p q : Path) :
  PathLib.le p q -> PathLib.le q p -> p = q.
Proof.
  unfold PathLib.le, PathLib.leb. rewrite (path_compare_antisym p q).
  destruct (PathLib.compare p q) eqn:E; simpl; try discriminate; intros _ _.
  now apply path_compare_eq.
Qed.


(* ================================================================= *)
(** ** The monad and the loop *)

Lemma for_each_cons {A} (x : A) (rest : list A) (body : A -> M unit) (st : state) :
  for_each (x :: rest) body st =
  match body x st with
  | (Ok _, st') => for_each rest body st'
  | (Raise e, st') => (Raise e, st')
  end.
Proof. reflexivity. Qed.

Lemma for_each_raise {A} (x : A) (rest : list A) (body : A -> M unit)
    (st st' : state) (e : exn) :
  body x st = (Raise e, st') -> for_each (x :: rest) body st = (Raise e, st').
Proof. intros H. rewrite for_each_cons, H. reflexivity. Qed.

Lemma for_each_continue {A} (x : A) (rest : list A) (body : A -> M unit)
    (st st' : state) :
  body x st = (Ok tt, st') -> for_each (x :: rest) body st = for_each rest body st'.
Proof. intros H. rewrite for_each_cons, H. reflexivity. Qed.

Lemma for_each_app {A} (pre rest : list A) (body : A -> M unit)
    (st st' : state) :
  for_each pre body st = (Ok tt, st') ->
  for_each (pre ++ rest) body st = for_each rest body st'.
Proof.
  revert st. induction pre as [|x pre IH]; intros st H.
  - inversion H. reflexivity.
  - rewrite <- app_comm_cons, for_each_cons. rewrite for_each_cons in H.
    destruct (body x st) as [[[]|e] st1]; [now apply IH|discriminate].
Qed.

(** A run is its preparation followed by its loop. *)
Lemma main_raise (E : env) (args : Cli.Args) (st st' : state) (e : exn) :
  Cli.prepare args st = (Raise e, st') -> Cli.main E args st = (Raise e, st').
Proof. intros H. unfold Cli.main, bind. now rewrite H. Qed.

Lemma main_loop (E : env) (args : Cli.Args) (st st' : state)
    (files : list Path) (mode : string) :
  Cli.prepare args st = (Ok (files, mode), st') ->
  Cli.main E args st = for_each files (Cli.convert_file E args mode) st'.
Proof. intros H. unfold Cli.main, bind. now rewrite H. Qed.

Lemma legacy_main_raise (E : env) (args : Legacy.Args) (st st' : state) (e : exn) :
  Legacy.prepare args st = (Raise e, st') -> Legacy.main E args st = (Raise e, st').
Proof. intros H. unfold Legacy.main, bind. now rewrite H. Qed.

Lemma legacy_main_loop (E : env) (args : Legacy.Args) (st st' : state)
    (files : list Path) (mode : string) :
  Legacy.prepare args st = (Ok (files, mode), st') ->
  Legacy.main E args st = for_each files (Legacy.convert_file E args mode) st'.
Proof. intros H. unfold Legacy.main, bind. now rewrite H. Qed.

Lemma try_except_lift {A} (m : M json) (k : json -> result A) (h : A)
    (st st' : state) (r : result json) :
  m st = (r, st') ->
  only_errors r ->
  (forall d, only_errors (k d)) ->
  try_except (d <- m ;; lift (k d)) (ret h) st =
  (Ok match r with
      | Ok d => match k d with Ok a => a | Raise _ => h end
      | Raise _ => h
      end, st').
Proof.
  intros Hm Hr Hk. unfold try_except, bind, lift, ret. rewrite Hm.
  destruct r as [d|[msg|kd]]; simpl in *.
  - specialize (Hk d). destruct (k d) as [a|[msg|kd]]; simpl in *; tauto.
  - contradiction.
  - reflexivity.
Qed.

(* ================================================================= *)
(** ** Python values raise exceptions only *)

Lemma get_only_errors (v : json) (k : string) : only_errors (PyVal.get v k).
Proof. destruct v; simpl; auto. destruct (Py.assoc k fields); simpl; auto. Qed.

Lemma getitem_only_errors (v : json) (k : string) : only_errors (PyVal.getitem v k).
Proof. destruct v; simpl; auto. destruct (Py.assoc k fields); simpl; auto. Qed.

Lemma item0_only_errors (v : json) : only_errors (PyVal.item0 v).
Proof. destruct v as [| | |s|items|]; simpl; auto; [destruct s|destruct items]; simpl; auto. Qed.

Lemma to_int_only_errors (conv : string -> option Z) (v : json) :
  only_errors (PyVal.to_int conv v).
Proof. destruct v; simpl; auto. destruct (conv s); simpl; auto. Qed.

Lemma rbind_only_errors {A B} (r : result A) (k : A -> result B) :
  only_errors r -> (forall a, only_errors (k a)) -> only_errors (rbind r k).
Proof. destruct r as [a|[msg|kd]]; simpl; auto. Qed.

Lemma opt_int_only_errors (E : env) (s : json) (k : string) :
  only_errors (Cli.opt_int E s k).
Proof.
  unfold Cli.opt_int. apply rbind_only_errors; [apply get_only_errors|].
  intros v. destruct (PyVal.truthy v); simpl; auto.
  apply rbind_only_errors; [apply getitem_only_errors|]. intros x.
  apply rbind_only_errors; [apply to_int_only_errors|]. intros n. simpl. auto.
Qed.

Lemma first_stream_info_only_errors (E : env) (data : json) :
  only_errors (Cli.first_stream_info E data).
Proof.
  unfold Cli.first_stream_info.
  apply rbind_only_errors; [apply get_only_errors|]. intros got.
  destruct (negb _); simpl; auto.
  apply rbind_only_errors; [apply item0_only_errors|]. intros s.
  apply rbind_only_errors; [apply get_only_errors|]. intros c.
  repeat (apply rbind_only_errors; [apply opt_int_only_errors|]; intro).
  simpl. auto.
Qed.

Lemma any_stream_only_errors (data : json) : only_errors (Cli.any_stream data).
Proof.
  unfold Cli.any_stream. apply rbind_only_errors; [apply get_only_errors|].
  intros got. simpl. auto.
Qed.

(* ================================================================= *)
(** ** The probes of [cli.py] *)

Lemma ensure_tools_ok (E : env) (st : state) :
  tools_ok E -> Cli.ensure_tools E st = (Ok tt, st).
Proof.
  intros [H1 H2]. unfold Cli.ensure_tools, Cli.which_or_exit, bind.
  rewrite H1, H2. reflexivity.
Qed.

Lemma check_output_json_spec (E : env) (cmd : list string) (st : state) :
  Cli.check_output_json E cmd st =
  (match ffprobe E cmd (fs st) with
   | ProbeFailed => Raise (Error "CalledProcessError")
   | ProbeMalformed => Raise (Error "JSONDecodeError")
   | ProbeJson data => Ok data
   end, emitted st [EProbe cmd]).
Proof.
  unfold Cli.check_output_json, bind, emit, get_fs, emitted. simpl.
  destruct (ffprobe E cmd (fs st)); reflexivity.
Qed.

Lemma ffprobe_audio_info_spec (E : env) (p : Path) (st : state) :
  tools_ok E ->
  Cli.ffprobe_audio_info E p st =
  (Ok (info_of_outcome E (ffprobe E (Cli.info_cmd p) (fs st))),
   emitted st [EProbe (Cli.info_cmd p)]).
Proof.
  intros Ht. unfold Cli.ffprobe_audio_info, bind at 1.
  rewrite (ensure_tools_ok E st Ht).
  rewrite (try_except_lift _ (Cli.first_stream_info E) Cli.ProbeInfo_none
             st _ _ (check_output_json_spec E (Cli.info_cmd p) st)).
  - unfold info_of_outcome.
    destruct (ffprobe E (Cli.info_cmd p) (fs st)); reflexivity.
  - destruct (ffprobe E (Cli.info_cmd p) (fs st)); simpl; auto.
  - apply first_stream_info_only_errors.
Qed.

Lemma has_audio_stream_spec (E : env) (p : Path) (st : state) :
  tools_ok E ->
  Cli.has_audio_stream E p st =
  (Ok (audio_of_outcome (ffprobe E (Cli.audio_cmd p) (fs st))),
   emitted st [EProbe (Cli.audio_cmd p)]).
Proof.
  intros Ht. unfold Cli.has_audio_stream, bind at 1.
  rewrite (ensure_tools_ok E st Ht).
  rewrite (try_except_lift _ Cli.any_stream false
             st _ _ (check_output_json_spec E (Cli.audio_cmd p) st)).
  - unfold audio_of_outcome.
    destruct (ffprobe E (Cli.audio_cmd p) (fs st)); reflexivity.
  - destruct (ffprobe E (Cli.audio_cmd p) (fs st)); simpl; auto.
  - apply any_stream_only_errors.
Qed.

Lemma zero_streams_info (E : env) (data : json) :
  zero_streams data -> Cli.first_stream_info E data = Ok Cli.ProbeInfo_none.
Proof.
  intros [fields [-> [H|H]]]; unfold Cli.first_stream_info; simpl; rewrite H;
    reflexivity.
Qed.

Lemma zero_streams_audio (data : json) :
  zero_streams data -> Cli.any_stream data = Ok false.
Proof.
  intros [fields [-> [H|H]]]; unfold Cli.any_stream; simpl; rewrite H;
    reflexivity.
Qed.

Lemma or_empty_lower_text (v : json) :
  text_or_none v ->
  PyVal.or_empty_lower v =
  Ok match v with JStr s => Py.lower s | _ => "" end.
Proof.
  destruct v as [| | |s| |]; simpl; try contradiction; intros _.
  - reflexivity.
  - unfold PyVal.or_empty_lower. simpl. destruct s; reflexivity.
Qed.

Lemma mode_of_codec_cases (codec : string) :
  (Cli.mode_of_codec codec = "copy" /\ codec = "mp3")
  \/ (Cli.mode_of_codec codec = "vbr" /\ codec <> "mp3").
Proof.
  unfold Cli.mode_of_codec. destruct (String.eqb_spec codec "mp3") as [H|H].
  - left. auto.
  - right. split; [destruct (negb _); reflexivity | exact H].
Qed.

Lemma autodetect_mode_spec (E : env) (f : Path) (st : state) :
  tools_ok E ->
  Cli.autodetect_mode E f st =
  (match PyVal.or_empty_lower
           (Cli.codec_name (info_of_outcome E (ffprobe E (Cli.info_cmd f) (fs st)))) with
   | Ok codec => Ok (Cli.mode_of_codec codec)
   | Raise e => Raise e
   end, emitted st [EProbe (Cli.info_cmd f)]).
Proof.
  intros Ht. unfold Cli.autodetect_mode, bind at 1.
  rewrite (ffprobe_audio_info_spec E f st Ht).
  unfold bind, lift, ret.
  destruct (PyVal.or_empty_lower _); reflexivity.
Qed.

(** Resolving the mode of a file changes neither the file system nor the
    pending input, and starts at most the probe of the first audio stream. *)
Lemma resolve_mode_frame (E : env) (mode : string) (f : Path) (st st1 : state)
    (r : result string) :
  tools_ok E ->
  Cli.resolve_mode E mode f st = (r, st1) ->
  fs st1 = fs st /\ stdin st1 = stdin st /\
  (trace st1 = trace st \/ trace st1 = trace st ++ [EProbe (Cli.info_cmd f)]).
Proof.
  intros Ht. unfold Cli.resolve_mode. destruct (String.eqb mode "auto").
  - rewrite (autodetect_mode_spec E f st Ht). intros H. inversion H. subst.
    simpl. auto.
  - unfold ret. intros H. inversion H. subst. auto.
Qed.

(* ================================================================= *)
(** ** The loop body of [cli.py] *)

Lemma convert_file_skip_exists (E : env) (args : Cli.Args) (mode : string)
    (f : Path) (st : state) :
  FS.exists_ (fs st) (Cli.out_file_of (Cli.arg_out args) f) = true ->
  Cli.arg_overwrite args = false ->
  Cli.convert_file E args mode f st =
  (Ok tt, emitted st [EPrint ("Skip (exists): "
                        ^^ PathLib.str (Cli.out_file_of (Cli.arg_out args) f))]).
Proof.
  intros Hex Hov. unfold Cli.convert_file, bind, get_fs.
  rewrite Hex, Hov. reflexivity.
Qed.

Lemma convert_file_no_audio (E : env) (args : Cli.Args) (mode fm : string)
    (f : Path) (st st1 : state) :
  tools_ok E ->
  FS.exists_ (fs st) (Cli.out_file_of (Cli.arg_out args) f)
    && negb (Cli.arg_overwrite args) = false ->
  Cli.resolve_mode E mode f st = (Ok fm, st1) ->
  audio_of_outcome (ffprobe E (Cli.audio_cmd f) (fs st)) = false ->
  Cli.convert_file E args mode f st =
  (Ok tt,
   emitted st1
     [EPrint ("Converting: " ^^ PathLib.str f ^^ " -> "
                ^^ PathLib.str (Cli.out_file_of (Cli.arg_out args) f)
                ^^ " [" ^^ Py.upper fm ^^ "]");
      EProbe (Cli.audio_cmd f);
      EPrint "  No audio stream found, skipping."]).
Proof.
  intros Ht Hskip Hres Haudio.
  destruct (resolve_mode_frame E mode f st st1 (Ok fm) Ht Hres) as [Hfs [Hin _]].
  unfold Cli.convert_file, bind at 1. unfold get_fs at 1. rewrite Hskip.
  unfold bind at 1. rewrite Hres.
  unfold bind at 1. unfold print at 1, emit at 1.
  unfold bind at 1. rewrite (has_audio_stream_spec E f _ Ht).
  cbn [fs stdin trace]. rewrite <- Hfs in Haudio. rewrite Haudio.
  unfold print, emit, emitted. cbn [negb fs stdin trace].
  rewrite <- !app_assoc. reflexivity.
Qed.

(* ================================================================= *)
(** ** The encoder invoker *)

Lemma run_ffmpeg_spec (E : env) (i o : Path) (ow : bool) (mode b : string)
    (q : Z) (st : state) (f' : filesystem) :
  tools_ok E ->
  FS.mkdir_p (fs st) (PathLib.parent o) = Some f' ->
  Cli.run_ffmpeg E i o ow mode b q st =
  match Cli.build_cmd i o ow mode b q with
  | Raise e =>
      (Raise e, mkState f' (stdin st) (trace st ++ [EMkdir (PathLib.parent o)]))
  | Ok cmd =>
      (if negb (fst (ffmpeg E cmd f') =? 0)%Z
       then Raise (SystemExit ("Conversion failed: " ^^ PathLib.str i))
       else Ok tt,
       mkState (snd (ffmpeg E cmd f')) (stdin st)
         (trace st ++ [EMkdir (PathLib.parent o); EFfmpeg cmd]))
  end.
Proof.
  intros Ht Hmk. unfold Cli.run_ffmpeg, bind at 1.
  rewrite (ensure_tools_ok E st Ht).
  unfold bind at 1, Cli.mkdir, bind at 1, emit, bind at 1, get_fs.
  cbn [fs stdin trace]. rewrite Hmk. unfold set_fs. cbn [fs stdin trace].
  unfold bind at 1, lift.
  destruct (Cli.build_cmd i o ow mode b q) as [cmd|e]; [|reflexivity].
  unfold bind at 1, Cli.subprocess_run, bind, emit, get_fs, set_fs, ret, raise.
  cbn [fs stdin trace]. rewrite <- app_assoc. cbn [app].
  destruct (negb _); reflexivity.
Qed.

Lemma legacy_run_ffmpeg_spec (E : env) (i o : Path) (ow : bool) (mode b : string)
    (q : Z) (st : state) (f' : filesystem) :
  which E "ffmpeg" = true ->
  FS.mkdir_p (fs st) (PathLib.parent o) = Some f' ->
  Legacy.run_ffmpeg E i o ow mode b q st =
  (if negb (fst (ffmpeg E (Legacy.build_cmd i o ow mode b q) f') =? 0)%Z
   then Raise (SystemExit ("Konvertierung fehlgeschlagen: " ^^ PathLib.str i))
   else Ok tt,
   mkState (snd (ffmpeg E (Legacy.build_cmd i o ow mode b q) f')) (stdin st)
     (trace st ++ [EMkdir (PathLib.parent o);
                   EFfmpeg (Legacy.build_cmd i o ow mode b q)])).
Proof.
  intros Ht Hmk. unfold Legacy.run_ffmpeg, bind at 1, Legacy.ensure_ffmpeg.
  rewrite Ht. unfold ret at 1.
  unfold bind at 1, Legacy.mkdir, bind at 1, emit, bind at 1, get_fs.
  cbn [fs stdin trace]. rewrite Hmk. unfold set_fs. cbn [fs stdin trace].
  unfold bind at 1, Legacy.subprocess_run, bind, emit, get_fs, set_fs, ret, raise.
  cbn [fs stdin trace]. rewrite <- app_assoc. cbn [app].
  destruct (negb _); reflexivity.
Qed.

(** A file that is not skipped reaches the encoder, and the outcome of the
    encoder is the outcome of the loop body. *)
Lemma convert_file_runs (E : env) (args : Cli.Args) (mode fm : string)
    (f : Path) (st st1 : state) (f' : filesystem) (cmd : list string) :
  let out_file := Cli.out_file_of (Cli.arg_out args) f in
  tools_ok E ->
  FS.exists_ (fs st) out_file && negb (Cli.arg_overwrite args) = false ->
  Cli.resolve_mode E mode f st = (Ok fm, st1) ->
  audio_of_outcome (ffprobe E (Cli.audio_cmd f) (fs st)) = true ->
  FS.mkdir_p (fs st) (PathLib.parent out_file) = Some f' ->
  Cli.build_cmd f out_file (Cli.arg_overwrite args) fm
    (Cli.arg_bitrate args) (Cli.arg_vbr_q args) = Ok cmd ->
  Cli.convert_file E args mode f st =
  let evs := [EPrint ("Converting: " ^^ PathLib.str f ^^ " -> "
                        ^^ PathLib.str out_file ^^ " [" ^^ Py.upper fm ^^ "]");
              EProbe (Cli.audio_cmd f);
              EMkdir (PathLib.parent out_file);
              EFfmpeg cmd] in
  if negb (fst (ffmpeg E cmd f') =? 0)%Z
  then (Raise (SystemExit ("Conversion failed: " ^^ PathLib.str f)),
        mkState (snd (ffmpeg E cmd f')) (stdin st1) (trace st1 ++ evs))
  else (Ok tt,
        mkState (snd (ffmpeg E cmd f')) (stdin st1)
          (trace st1 ++ evs ++ [EPrint "OK"])).
Proof.
  intros out_file Ht Hskip Hres Haudio Hmk Hcmd.
  destruct (resolve_mode_frame E mode f st st1 (Ok fm) Ht Hres) as [Hfs [Hin _]].
  unfold Cli.convert_file, bind at 1. unfold get_fs at 1.
  fold out_file. rewrite Hskip.
  unfold bind at 1. rewrite Hres.
  unfold bind at 1. unfold print at 1, emit at 1.
  unfold bind at 1. rewrite (has_audio_stream_spec E f _ Ht).
  cbn [fs stdin trace]. rewrite <- Hfs in Haudio, Hmk. rewrite Haudio.
  cbn [negb]. unfold bind at 1.
  rewrite (run_ffmpeg_spec E f out_file _ fm _ _ _ f' Ht);
    [|unfold emitted; cbn [fs]; exact Hmk].
  rewrite Hcmd. unfold emitted. cbn [fs stdin trace].
  rewrite <- !app_assoc. cbn [app].
  destruct (negb (fst (ffmpeg E cmd f') =? 0)%Z); [reflexivity|].
  unfold print, emit. cbn [fs stdin trace]. rewrite <- !app_assoc. reflexivity.
Qed.

Lemma legacy_convert_file_skip_exists (E : env) (args : Legacy.Args)
    (mode : string) (f : Path) (st : state) :
  FS.exists_ (fs st) (Legacy.out_file_of (Legacy.arg_out args) f) = true ->
  Legacy.arg_overwrite args = false ->
  Legacy.convert_file E args mode f st =
  (Ok tt, emitted st [EPrint ("Überspringe (existiert): "
                        ^^ PathLib.str (Legacy.out_file_of (Legacy.arg_out args) f))]).
Proof.
  intros Hex Hov. unfold Legacy.convert_file, bind, get_fs.
  rewrite Hex, Hov. reflexivity.
Qed.

Lemma legacy_convert_file_runs (E : env) (args : Legacy.Args) (mode : string)
    (f : Path) (st : state) (f' : filesystem) :
  let out_file := Legacy.out_file_of (Legacy.arg_out args) f in
  let cmd := Legacy.build_cmd f out_file (Legacy.arg_overwrite args) mode
               (Legacy.arg_bitrate args) (Legacy.arg_vbr_q args) in
  which E "ffmpeg" = true ->
  FS.exists_ (fs st) out_file && negb (Legacy.arg_overwrite args) = false ->
  FS.mkdir_p (fs st) (PathLib.parent out_file) = Some f' ->
  Legacy.convert_file E args mode f st =
  let evs := [EPrint ("Konvertiere: " ^^ PathLib.str f ^^ " -> "
                        ^^ PathLib.str out_file ^^ " [" ^^ Py.upper mode ^^ "]");
              EMkdir (PathLib.parent out_file);
              EFfmpeg cmd] in
  if negb (fst (ffmpeg E cmd f') =? 0)%Z
  then (Raise (SystemExit ("Konvertierung fehlgeschlagen: " ^^ PathLib.str f)),
        mkState (snd (ffmpeg E cmd f')) (stdin st) (trace st ++ evs))
  else (Ok tt,
        mkState (snd (ffmpeg E cmd f')) (stdin st)
          (trace st ++ evs ++ [EPrint "OK"])).
Proof.
  intros out_file cmd Ht Hskip Hmk.
  unfold Legacy.convert_file, bind at 1. unfold get_fs at 1.
  fold out_file. rewrite Hskip.
  unfold bind at 1. unfold print at 1, emit at 1.
  unfold bind at 1.
  rewrite (legacy_run_ffmpeg_spec E f out_file _ mode _ _ _ f' Ht);
    [|cbn [fs]; exact Hmk].
  fold cmd. cbn [fs stdin trace].
  rewrite <- !app_assoc. cbn [app].
  destruct (negb (fst (ffmpeg E cmd f') =? 0)%Z); [reflexivity|].
  unfold print, emit. cbn [fs stdin trace]. rewrite <- !app_assoc. reflexivity.
Qed.

(* ================================================================= *)
(** ** The file system and the file collector *)

Lemma path_eqb_eq (p q : Path) : FS.path_eqb p q = true <-> p = q.
Proof.
  revert q. induction p as [|a p IH]; intros [|b q]; simpl; split;
    try discriminate; try reflexivity.
  - intros H. apply andb_true_iff in H. destruct H as [H1 H2].
    apply String.eqb_eq in H1. apply IH in H2. now subst.
  - intros H. inversion H. subst. apply andb_true_iff. split.
    + apply String.eqb_refl.
    + now apply IH.
Qed.

Lemma find_in (f : filesystem) (p : Path) (k : kind) :
  FS.find f p = Some k -> In p (map fst f).
Proof.
  induction f as [|[q k'] f IH]; simpl; [discriminate|].
  destruct (FS.path_eqb p q) eqn:Hq.
  - apply path_eqb_eq in Hq. auto.
  - auto.
Qed.

Lemma is_file_in (f : filesystem) (p : Path) :
  FS.is_file f p = true -> In p (map fst f).
Proof.
  unfold FS.is_file, FS.lookup. destruct p as [|a p]; [discriminate|].
  destruct (FS.find f (a :: p)) as [k|] eqn:Hf; [|discriminate].
  intros _. exact (find_in f _ k Hf).
Qed.

Lemma relative_to_app (p q r : Path) :
  FS.relative_to p q = Some r <-> q = p ++ r.
Proof.
  revert q. induction p as [|a p IH]; intros q; simpl.
  - split; [intros H; now inversion H | intros ->; reflexivity].
  - destruct q as [|b q].
    + split; discriminate.
    + destruct (String.eqb_spec a b) as [->|Hab].
      * rewrite IH. split; [intros ->; reflexivity | intros H; now inversion H].
      * split; [discriminate | intros H; inversion H; congruence].
Qed.

Lemma is_child_iff (p q : Path) :
  FS.is_child p q = true <-> exists n, q = p ++ [n].
Proof.
  unfold FS.is_child. split.
  - destruct (FS.relative_to p q) as [[|n [|m r]]|] eqn:H; try discriminate.
    intros _. exists n. now apply relative_to_app.
  - intros [n Hn]. apply relative_to_app in Hn. now rewrite Hn.
Qed.

Lemma is_below_iff (p q : Path) :
  FS.is_below p q = true <-> exists n rest, q = p ++ n :: rest.
Proof.
  unfold FS.is_below. split.
  - destruct (FS.relative_to p q) as [[|n r]|] eqn:H; try discriminate.
    intros _. exists n, r. now apply relative_to_app.
  - intros [n [r Hn]]. apply relative_to_app in Hn. now rewrite Hn.
Qed.

Lemma strongly_sorted_filter {A} (R : A -> A -> Prop) (keep : A -> bool)
    (l : list A) :
  StronglySorted R l -> StronglySorted R (filter keep l).
Proof.
  induction 1 as [|a l Hs IH Hall]; simpl; [constructor|].
  destruct (keep a); [|exact IH].
  constructor; [exact IH|].
  apply Forall_forall. intros x Hx. apply filter_In in Hx.
  rewrite Forall_forall in Hall. apply Hall. tauto.
Qed.

Lemma insert_sorted_perm (p : Path) (l : list Path) :
  Permutation (p :: l) (insert_sorted p l).
Proof.
  induction l as [|q rest IH]; simpl; [reflexivity|].
  destruct (PathLib.leb p q); [reflexivity|].
  rewrite perm_swap. now apply perm_skip.
Qed.

Lemma sorted_perm (l : list Path) : Permutation l (sorted l).
Proof.
  induction l as [|p l IH]; simpl; [constructor|].
  rewrite <- insert_sorted_perm. now apply perm_skip.
Qed.

Lemma insert_sorted_strongly (p : Path) (l : list Path) :
  StronglySorted PathLib.le l -> StronglySorted PathLib.le (insert_sorted p l).
Proof.
  induction 1 as [|q rest Hs IH Hall]; simpl.
  - repeat constructor.
  - destruct (PathLib.leb p q) eqn:Hpq.
    + constructor; [now constructor|]. constructor; [exact Hpq|].
      eapply Forall_impl; [|exact Hall]. intros x Hx.
      exact (path_le_trans p q x Hpq Hx).
    + constructor; [exact IH|].
      eapply Permutation_Forall; [apply insert_sorted_perm|].
      constructor; [|exact Hall].
      destruct (path_leb_total p q) as [H|H]; [congruence|exact H].
Qed.

Lemma sorted_strongly (l : list Path) : StronglySorted PathLib.le (sorted l).
Proof.
  induction l as [|p l IH]; simpl; [constructor|].
  now apply insert_sorted_strongly.
Qed.

Lemma sorted_in (l : list Path) (p : Path) : In p (sorted l) <-> In p l.
Proof.
  split; apply Permutation_in; [apply Permutation_sym|]; apply sorted_perm.
Qed.

Lemma sorted_nodup (l : list Path) : NoDup l -> NoDup (sorted l).
Proof. apply Permutation_NoDup, sorted_perm. Qed.

(** The sorted list is the only sorted arrangement of its elements: whatever
    algorithm [sorted] runs, this is its result. *)
Lemma sorted_unique (l l' : list Path) :
  Permutation l l' -> StronglySorted PathLib.le l' -> l' = sorted l.
Proof.
  intros Hperm Hs'.
  assert (Hp : Permutation l' (sorted l)).
  { rewrite <- Hperm. apply sorted_perm. }
  pose proof (sorted_strongly l) as Hs. clear Hperm.
  revert Hp Hs. generalize (sorted l) as m. revert Hs'.
  induction l' as [|a l' IH]; intros Hs' m Hp Hs.
  - apply Permutation_nil in Hp. now subst.
  - destruct m as [|b m].
    + apply Permutation_sym, Permutation_nil in Hp. discriminate.
    + inversion Hs' as [|? ? Hs1 Ha]. inversion Hs as [|? ? Hs2 Hb]. subst.
      assert (Hab : a = b).
      { assert (Hin1 : In a (b :: m)).
        { eapply Permutation_in; [exact Hp|]. now left. }
        assert (Hin2 : In b (a :: l')).
        { eapply Permutation_in; [apply Permutation_sym; exact Hp|]. now left. }
        destruct Hin1 as [->|Hin1]; [reflexivity|].
        destruct Hin2 as [->|Hin2]; [reflexivity|].
        rewrite Forall_forall in Ha, Hb.
        apply path_le_antisym; auto. }
      subst. f_equal. apply IH; try assumption.
      now apply Permutation_cons_inv in Hp.
Qed.

Lemma video_ext_iff (p : Path) :
  video_ext p = true <-> In (Py.lower (PathLib.suffix p)) [".mp4"; ".m4v"; ".mov"].
Proof.
  unfold video_ext, Py.mem, VIDEO_EXTS. rewrite existsb_exists. split.
  - intros [x [Hin Heq]]. apply String.eqb_eq in Heq. now subst.
  - intros Hin. exists (Py.lower (PathLib.suffix p)). split; [exact Hin|].
    apply String.eqb_refl.
Qed.

(** Sorting and filtering a duplicate-free listing whose members are the
    wanted files, or more, gives the candidate set. *)
Lemma candidate_set_of_listing (f : filesystem) (in_path : Path)
    (recursive : bool) (listing : list Path) :
  NoDup listing ->
  (forall p, FS.is_file f p = true -> video_ext p = true ->
             (In p listing <-> contained in_path recursive p)) ->
  candidate_set f in_path recursive
    (filter (fun p => FS.is_file f p && video_ext p) (sorted listing)).
Proof.
  intros Hnd Hmem. split; [|split].
  - intros p. rewrite filter_In, andb_true_iff, sorted_in, <- video_ext_iff. split.
    + intros [Hin [H1 H2]]. repeat split; try assumption. now apply Hmem.
    + intros [H1 [H2 H3]]. repeat split; try assumption. now apply Hmem.
  - apply strongly_sorted_filter, sorted_strongly.
  - apply NoDup_filter, sorted_nodup, Hnd.
Qed.

Lemma iterdir_contained (f : filesystem) (in_path p : Path) :
  FS.is_file f p = true ->
  (In p (FS.iterdir f in_path) <-> contained in_path false p).
Proof.
  intros Hf. unfold FS.iterdir, contained. rewrite filter_In, is_child_iff.
  split.
  - intros [_ [n Hn]]. exists n, []. auto.
  - intros [n [rest [Hp Hr]]]. rewrite (Hr eq_refl) in Hp. split.
    + now apply is_file_in.
    + now exists n.
Qed.

Lemma rglob_contained (f : filesystem) (in_path p : Path) :
  FS.is_file f p = true ->
  (In p (FS.rglob f in_path) <-> contained in_path true p).
Proof.
  intros Hf. unfold FS.rglob, contained. rewrite filter_In, is_below_iff.
  split.
  - intros [_ [n [rest Hn]]]. exists n, rest. split; [exact Hn|discriminate].
  - intros [n [rest [Hp _]]]. split.
    + now apply is_file_in.
    + now exists n, rest.
Qed.

Lemma sorted_singleton (p : Path) : sorted [p] = [p].
Proof. reflexivity. Qed.

Lemma is_file_facts (f : filesystem) (p : Path) :
  FS.is_file f p = true -> FS.exists_ f p = true /\ FS.is_dir f p = false.
Proof.
  unfold FS.is_file, FS.exists_, FS.is_dir.
  destruct (FS.lookup f p) as [[|]|]; try discriminate. auto.
Qed.

(* ================================================================= *)
(** ** The questions of the earlier script touch the terminal only *)

Lemma terminal_only_refl (st : state) : terminal_only st st.
Proof. split; [reflexivity|]. exists []. now rewrite app_nil_r. Qed.

Lemma terminal_only_trans (a b c : state) :
  terminal_only a b -> terminal_only b c -> terminal_only a c.
Proof.
  intros [H1 [e1 [T1 F1]]] [H2 [e2 [T2 F2]]]. split; [congruence|].
  exists (e1 ++ e2). rewrite T2, T1, app_assoc. split; [reflexivity|].
  apply Forall_app. auto.
Qed.

Lemma legacy_ask_yes_no_loop_frame (question : string) (default : bool)
    (lines : list string) (tr : list event) :
  exists evs,
    snd (Legacy.ask_yes_no_loop question default lines tr) = tr ++ evs
    /\ Forall terminal_event evs.
Proof.
  revert tr. induction lines as [|line rest IH]; intros tr;
    cbn [Legacy.ask_yes_no_loop].
  - exists [EInput question]. split; [reflexivity|]. repeat constructor.
  - destruct (String.eqb _ "");
      [exists [EInput question]; split; [reflexivity|repeat constructor]|].
    destruct (Py.mem _ ["y"; "yes"; "j"; "ja"]);
      [exists [EInput question]; split; [reflexivity|repeat constructor]|].
    destruct (Py.mem _ ["n"; "no"; "nein"]);
      [exists [EInput question]; split; [reflexivity|repeat constructor]|].
    match goal with
    | |- context [Legacy.ask_yes_no_loop _ _ _ ((tr ++ [?a]) ++ [?b])] =>
        destruct (IH ((tr ++ [a]) ++ [b])) as [evs [H Hall]];
        exists (a :: b :: evs); rewrite H, <- !app_assoc; split;
        [reflexivity|repeat constructor; exact Hall]
    end.
Qed.

Lemma legacy_ask_choice_loop_frame (question : string) (keys : list string)
    (default_key : string) (lines : list string) (tr : list event) :
  exists evs,
    snd (Legacy.ask_choice_loop question keys default_key lines tr) = tr ++ evs
    /\ Forall terminal_event evs.
Proof.
  revert tr. induction lines as [|line rest IH]; intros tr;
    cbn [Legacy.ask_choice_loop].
  - exists [EInput question]. split; [reflexivity|]. repeat constructor.
  - destruct (String.eqb _ "");
      [exists [EInput question]; split; [reflexivity|repeat constructor]|].
    destruct (Py.mem _ keys);
      [exists [EInput question]; split; [reflexivity|repeat constructor]|].
    match goal with
    | |- context [Legacy.ask_choice_loop _ _ _ _ ((tr ++ [?a]) ++ [?b])] =>
        destruct (IH ((tr ++ [a]) ++ [b])) as [evs [H Hall]];
        exists (a :: b :: evs); rewrite H, <- !app_assoc; split;
        [reflexivity|repeat constructor; exact Hall]
    end.
Qed.

Lemma legacy_ask_yes_no_frame (prompt : string) (default : bool)
    (st st' : state) (r : result bool) :
  Legacy.ask_yes_no prompt default st = (r, st') -> terminal_only st st'.
Proof.
  unfold Legacy.ask_yes_no.
  destruct (legacy_ask_yes_no_loop_frame
              (prompt ^^ " (y/n) [Default: " ^^ (if default then "y" else "n") ^^ "]: ")
              default (stdin st) (trace st)) as [evs [H Hall]].
  destruct (Legacy.ask_yes_no_loop _ default (stdin st) (trace st)) as [[r0 lines] tr].
  simpl in H. intros Heq. inversion Heq. subst. split; [reflexivity|].
  exists evs. auto.
Qed.

Lemma legacy_choose_mode_frame (args : Legacy.Args) (st st' : state)
    (r : result string) :
  Legacy.choose_mode args st = (r, st') -> terminal_only st st'.
Proof.
  unfold Legacy.choose_mode. destruct (Legacy.arg_mode args) as [m|].
  - unfold ret. intros H. inversion H. subst. apply terminal_only_refl.
  - unfold bind, Legacy.ask_choice. cbn [Py.assoc String.eqb Ascii.eqb Bool.eqb].
    match goal with
    | |- context [Legacy.ask_choice_loop ?q ?k ?d (stdin st) (trace st)] =>
        destruct (legacy_ask_choice_loop_frame q k d (stdin st) (trace st))
          as [evs [H Hall]];
        destruct (Legacy.ask_choice_loop q k d (stdin st) (trace st))
          as [[r0 lines] tr]
    end.
    simpl in H. destruct r0 as [choice|e]; unfold ret; intros Heq;
      inversion Heq; subst; (split; [reflexivity|]); exists evs; auto.
Qed.

(* ================================================================= *)
(** ** The claims *)

(** C1, as the programs have it.  A run in the mode vbr with [--vbr-q]
    outside 0..9 ends fatally before any file is scanned or processed.  In
    [cli.py] the mode is the flag [--mode vbr]: the run ends in [SystemExit]
    with the state untouched, the message being that of the range or, when
    the input path does not exist, that of the path.  In the earlier script
    the mode is the flag or the answer to the question: the run ends in an
    exception after prompts and prints only. *)
Theorem C1_vbr_q_out_of_range (E : env) (st : state) :
  (forall args : Cli.Args,
     Cli.arg_mode args = "vbr" ->
     ~ (0 <= Cli.arg_vbr_q args <= 9)%Z ->
     Cli.main E args st =
     (Raise (SystemExit
               (if FS.exists_ (fs st) (Cli.arg_input args)
                then "--vbr-q must be between 0 and 9."
                else "Path not found: " ^^ PathLib.str (Cli.arg_input args))),
      st))
  /\ (forall (args : Legacy.Args) (st1 : state),
        Legacy.choose_mode args st = (Ok "vbr", st1) ->
        ~ (0 <= Legacy.arg_vbr_q args <= 9)%Z ->
        exists e st',
          Legacy.main E args st = (Raise e, st') /\ terminal_only st st').
Proof.
  split.
  - intros args Hmode Hq. apply main_raise.
    unfold Cli.prepare, bind at 1, get_fs at 1.
    destruct (FS.exists_ (fs st) (Cli.arg_input args)); [|reflexivity].
    cbn [negb]. unfold Cli.vbr_q_rejected. rewrite Hmode. cbn [String.eqb].
    replace ((0 <=? Cli.arg_vbr_q args)%Z && (Cli.arg_vbr_q args <=? 9)%Z)
      with false; [reflexivity|].
    symmetry. apply andb_false_iff.
    destruct (Z.leb_spec 0 (Cli.arg_vbr_q args)); [|auto].
    destruct (Z.leb_spec (Cli.arg_vbr_q args) 9); [|auto]. lia.
  - intros args st1 Hmode Hq.
    assert (Hprep : exists e st',
               Legacy.prepare args st = (Raise e, st') /\ terminal_only st st').
    { unfold Legacy.prepare, bind at 1, get_fs at 1.
      destruct (FS.exists_ (fs st) (Legacy.arg_input args)).
      - cbn [negb]. unfold bind at 1. rewrite Hmode.
        assert (Hrej : Legacy.vbr_q_rejected "vbr" args = true).
        { unfold Legacy.vbr_q_rejected. cbn [String.eqb].
          apply andb_true_iff. split; [reflexivity|]. apply negb_true_iff.
          apply andb_false_iff.
          destruct (Z.leb_spec 0 (Legacy.arg_vbr_q args)); [|auto].
          destruct (Z.leb_spec (Legacy.arg_vbr_q args) 9); [|auto]. lia. }
        pose proof (legacy_choose_mode_frame args st st1 _ Hmode) as Hf1.
        unfold bind at 1.
        destruct (FS.is_dir (fs st) (Legacy.arg_input args)
                  && negb (Legacy.arg_recursive args)).
        + destruct (Legacy.ask_yes_no "Soll ich Unterordner rekursiv durchsuchen?"
                      true st1) as [r st2] eqn:Hask.
          pose proof (legacy_ask_yes_no_frame _ _ _ _ _ Hask) as Hf2.
          destruct r as [rec|e].
          * rewrite Hrej. eexists _, st2. split; [reflexivity|].
            exact (terminal_only_trans _ _ _ Hf1 Hf2).
          * exists e, st2. split; [reflexivity|].
            exact (terminal_only_trans _ _ _ Hf1 Hf2).
        + unfold ret at 1. rewrite Hrej. eexists _, st1. split; [reflexivity|].
          exact Hf1.
      - cbn [negb]. eexists _, st. split; [reflexivity|]. apply terminal_only_refl. }
    destruct Hprep as [e [st' [Hprep Hterm]]]. exists e, st'.
    split; [exact (legacy_main_raise E args st st' e Hprep)|exact Hterm].
Qed.

Lemma C1_vbr_q_out_of_range_witness :
  let E := Sample.world ProbeFailed ProbeFailed 0 in
  let st := Sample.start Sample.one_file in
  Cli.main E (Cli.mkArgs ["video.mp4"] None "vbr" "192k" 10 false false true) st =
  (Raise (SystemExit "--vbr-q must be between 0 and 9."), st)
  /\ exists e st',
       Legacy.main E (Legacy.mkArgs ["video.mp4"] None false (Some "vbr") "192k" (-1) false) st
       = (Raise e, st') /\ terminal_only st st'.
Proof.
  intros E st. split.
  - apply (proj1 (C1_vbr_q_out_of_range E st)
             (Cli.mkArgs ["video.mp4"] None "vbr" "192k" 10 false false true)).
    + reflexivity.
    + cbn. lia.
  - apply (proj2 (C1_vbr_q_out_of_range E st)
             (Legacy.mkArgs ["video.mp4"] None false (Some "vbr") "192k" (-1) false) st).
    + reflexivity.
    + cbn. lia.
Defined.

(** C1 as stated fails: a run with [--mode cbr --vbr-q 10] is not ended; it
    converts its file and terminates normally. *)
Lemma C1_counterexample :
  let E := Sample.world (ProbeJson (Sample.one_stream "aac"))
             (ProbeJson Sample.indexed_stream) 0 in
  let args := Cli.mkArgs ["video.mp4"] None "cbr" "192k" 10 false false true in
  ~ (0 <= Cli.arg_vbr_q args <= 9)%Z
  /\ Cli.main E args (Sample.start Sample.one_file) =
     (Ok tt,
      mkState Sample.one_file []
        [EPrint "Converting: /video.mp4 -> /video.mp3 [CBR]";
         EProbe (Cli.audio_cmd ["video.mp4"]);
         EMkdir [];
         EFfmpeg ["ffmpeg"; "-hide_banner"; "-nostats"; "-i"; "/video.mp4"; "-vn";
                  "-map"; "0:a:0"; "-map_metadata"; "0"; "-c:a"; "libmp3lame";
                  "-b:a"; "192k"; "-n"; "/video.mp3"];
         EPrint "OK"]).
Proof. split; [cbn; lia | vm_compute; reflexivity]. Qed.

(** With [--mode auto] the quality level is not checked either, although
    auto resolves to vbr for this file: the value 10 reaches the encoder. *)
Example auto_mode_passes_unchecked_quality :
  let E := Sample.world (ProbeJson (Sample.one_stream "aac"))
             (ProbeJson Sample.indexed_stream) 0 in
  let args := Cli.mkArgs ["video.mp4"] None "auto" "192k" 10 false false true in
  exists st', Cli.main E args (Sample.start Sample.one_file) = (Ok tt, st')
    /\ In (EFfmpeg ["ffmpeg"; "-hide_banner"; "-nostats"; "-i"; "/video.mp4"; "-vn";
                    "-map"; "0:a:0"; "-map_metadata"; "0"; "-c:a"; "libmp3lame";
                    "-q:a"; "10"; "-n"; "/video.mp3"]) (trace st').
Proof.
  intros E args. eexists. split; [vm_compute; reflexivity|].
  cbn. do 4 right. left. reflexivity.
Qed.

(** C2, as the programs have it.  In both programs a file whose encoder
    exits with a non-zero status ends the whole run.  The loop, having reached
    the file [f] in the state [st], stops with [SystemExit] naming [f]; the
    files [rest] after it are not touched, the start of that one encoder being
    the last event.  A run of [main] whose candidate files are
    [pre ++ f :: rest] and whose loop came through [pre] ends the same way. *)
Theorem C2_failed_conversion_ends_run (E : env) (pre : list Path) (f : Path)
    (rest : list Path) (st : state) (f' : filesystem) :
  (forall (args : Cli.Args) (mode fm : string) (st1 : state) (cmd : list string),
     let out_file := Cli.out_file_of (Cli.arg_out args) f in
     let failed :=
       (@Raise unit (SystemExit ("Conversion failed: " ^^ PathLib.str f)),
        mkState (snd (ffmpeg E cmd f')) (stdin st1)
          (trace st1 ++
           [EPrint ("Converting: " ^^ PathLib.str f ^^ " -> " ^^ PathLib.str out_file
                      ^^ " [" ^^ Py.upper fm ^^ "]");
            EProbe (Cli.audio_cmd f);
            EMkdir (PathLib.parent out_file);
            EFfmpeg cmd])) in
     tools_ok E ->
     FS.exists_ (fs st) out_file && negb (Cli.arg_overwrite args) = false ->
     Cli.resolve_mode E mode f st = (Ok fm, st1) ->
     audio_of_outcome (ffprobe E (Cli.audio_cmd f) (fs st)) = true ->
     FS.mkdir_p (fs st) (PathLib.parent out_file) = Some f' ->
     Cli.build_cmd f out_file (Cli.arg_overwrite args) fm
       (Cli.arg_bitrate args) (Cli.arg_vbr_q args) = Ok cmd ->
     fst (ffmpeg E cmd f') <> 0%Z ->
     for_each (f :: rest) (Cli.convert_file E args mode) st = failed
     /\ (forall start st0,
           Cli.prepare args start = (Ok (pre ++ f :: rest, mode), st0) ->
           for_each pre (Cli.convert_file E args mode) st0 = (Ok tt, st) ->
           Cli.main E args start = failed))
  /\ (forall (args : Legacy.Args) (mode : string),
        let out_file := Legacy.out_file_of (Legacy.arg_out args) f in
        let cmd := Legacy.build_cmd f out_file (Legacy.arg_overwrite args) mode
                     (Legacy.arg_bitrate args) (Legacy.arg_vbr_q args) in
        let failed :=
          (@Raise unit (SystemExit ("Konvertierung fehlgeschlagen: " ^^ PathLib.str f)),
           mkState (snd (ffmpeg E cmd f')) (stdin st)
             (trace st ++
              [EPrint ("Konvertiere: " ^^ PathLib.str f ^^ " -> " ^^ PathLib.str out_file
                         ^^ " [" ^^ Py.upper mode ^^ "]");
               EMkdir (PathLib.parent out_file);
               EFfmpeg cmd])) in
        which E "ffmpeg" = true ->
        FS.exists_ (fs st) out_file && negb (Legacy.arg_overwrite args) = false ->
        FS.mkdir_p (fs st) (PathLib.parent out_file) = Some f' ->
        fst (ffmpeg E cmd f') <> 0%Z ->
        for_each (f :: rest) (Legacy.convert_file E args mode) st = failed
        /\ (forall start st0,
              Legacy.prepare args start = (Ok (pre ++ f :: rest, mode), st0) ->
              for_each pre (Legacy.convert_file E args mode) st0 = (Ok tt, st) ->
              Legacy.main E args start = failed)).
Proof.
  split.
  - intros args mode fm st1 cmd out_file failed Ht Hskip Hres Haudio Hmk Hcmd Hrc.
    assert (Hloop : for_each (f :: rest) (Cli.convert_file E args mode) st = failed).
    { apply for_each_raise.
      rewrite (convert_file_runs E args mode fm f st st1 f' cmd
                 Ht Hskip Hres Haudio Hmk Hcmd).
      apply Z.eqb_neq in Hrc. fold out_file. now rewrite Hrc. }
    split; [exact Hloop|]. intros start st0 Hprep Hpre.
    rewrite (main_loop E args start st0 _ mode Hprep).
    now rewrite (for_each_app pre (f :: rest) _ st0 st Hpre).
  - intros args mode out_file cmd failed Ht Hskip Hmk Hrc.
    assert (Hloop : for_each (f :: rest) (Legacy.convert_file E args mode) st = failed).
    { apply for_each_raise.
      rewrite (legacy_convert_file_runs E args mode f st f' Ht Hskip Hmk).
      apply Z.eqb_neq in Hrc. fold out_file. fold cmd. now rewrite Hrc. }
    split; [exact Hloop|]. intros start st0 Hprep Hpre.
    rewrite (legacy_main_loop E args start st0 _ mode Hprep).
    now rewrite (for_each_app pre (f :: rest) _ st0 st Hpre).
Qed.

Lemma C2_failed_conversion_ends_run_witness :
  let E := Sample.world (ProbeJson (Sample.one_stream "aac"))
             (ProbeJson Sample.indexed_stream) 1 in
  let args := Cli.mkArgs ["d"] None "vbr" "192k" 2 false false true in
  let st := mkState Sample.two_files [] [EScan ["d"] false] in
  Cli.main E args (Sample.start Sample.two_files) =
  (Raise (SystemExit "Conversion failed: /d/a.mp4"),
   mkState Sample.two_files []
     [EScan ["d"] false;
      EPrint "Converting: /d/a.mp4 -> /d/a.mp3 [VBR]";
      EProbe (Cli.audio_cmd ["d"; "a.mp4"]);
      EMkdir ["d"];
      EFfmpeg ["ffmpeg"; "-hide_banner"; "-nostats"; "-i"; "/d/a.mp4"; "-vn";
               "-map"; "0:a:0"; "-map_metadata"; "0"; "-c:a"; "libmp3lame";
               "-q:a"; "2"; "-n"; "/d/a.mp3"]]).
Proof.
  intros E args st.
  apply (proj2
           (proj1 (C2_failed_conversion_ends_run E [] ["d"; "a.mp4"] [["d"; "b.mp4"]]
                     st Sample.two_files) args "vbr" "vbr" st
              ["ffmpeg"; "-hide_banner"; "-nostats"; "-i"; "/d/a.mp4"; "-vn";
               "-map"; "0:a:0"; "-map_metadata"; "0"; "-c:a"; "libmp3lame";
               "-q:a"; "2"; "-n"; "/d/a.mp3"]
              (conj eq_refl eq_refl) eq_refl eq_refl eq_refl eq_refl eq_refl
              ltac:(discriminate))
           (Sample.start Sample.two_files) st eq_refl eq_refl).
Defined.

(** C2 as stated fails: of the two candidate files of the directory the
    encoder fails on the first, and the run ends there with a non-zero exit;
    the second file, [/d/b.mp4], is never converted. *)
Lemma C2_counterexample :
  let E := Sample.world (ProbeJson (Sample.one_stream "aac"))
             (ProbeJson Sample.indexed_stream) 1 in
  let args := Cli.mkArgs ["d"] None "vbr" "192k" 2 false false true in
  Cli.candidate_files Sample.two_files
    (Cli.iter_inputs_on Sample.two_files ["d"] false)
  = [["d"; "a.mp4"]; ["d"; "b.mp4"]]
  /\ Cli.main E args (Sample.start Sample.two_files) =
     (Raise (SystemExit "Conversion failed: /d/a.mp4"),
      mkState Sample.two_files []
        [EScan ["d"] false;
         EPrint "Converting: /d/a.mp4 -> /d/a.mp3 [VBR]";
         EProbe (Cli.audio_cmd ["d"; "a.mp4"]);
         EMkdir ["d"];
         EFfmpeg ["ffmpeg"; "-hide_banner"; "-nostats"; "-i"; "/d/a.mp4"; "-vn";
                  "-map"; "0:a:0"; "-map_metadata"; "0"; "-c:a"; "libmp3lame";
                  "-q:a"; "2"; "-n"; "/d/a.mp3"]]).
Proof. split; vm_compute; reflexivity. Qed.

(** C3.  Mode resolution per file ([file_mode] of [main]).  The requested
    modes cbr, vbr and copy resolve to themselves, and nothing is probed for
    them: the state is unchanged.  The requested mode auto probes the file
    once; with the tools installed and a codec name that is a string or
    absent, it resolves to copy exactly when the probed codec (the name
    ffprobe reports, in lower case, empty when the probe failed or found
    nothing) is mp3, to vbr in every other case, and never to cbr. *)
Theorem C3_mode_resolution (E : env) (f : Path) (st : state) :
  tools_ok E ->
  let info := info_of_outcome E (ffprobe E (Cli.info_cmd f) (fs st)) in
  text_or_none (Cli.codec_name info) ->
  Cli.ffprobe_audio_info E f st = (Ok info, emitted st [EProbe (Cli.info_cmd f)])
  /\ (exists m,
        Cli.resolve_mode E "auto" f st = (Ok m, emitted st [EProbe (Cli.info_cmd f)])
        /\ (m = "copy" <-> probed_codec info = "mp3")
        /\ (probed_codec info <> "mp3" -> m = "vbr")
        /\ m <> "cbr")
  /\ (forall m, m = "cbr" \/ m = "vbr" \/ m = "copy" ->
                Cli.resolve_mode E m f st = (Ok m, st)).
Proof.
  intros Ht info Htext. split; [apply ffprobe_audio_info_spec, Ht|]. split.
  - change (Cli.resolve_mode E "auto" f st) with (Cli.autodetect_mode E f st).
    rewrite (autodetect_mode_spec E f st Ht). fold info.
    rewrite (or_empty_lower_text _ Htext). fold (probed_codec info).
    exists (Cli.mode_of_codec (probed_codec info)). split; [reflexivity|].
    destruct (mode_of_codec_cases (probed_codec info)) as [[Hm Hc]|[Hm Hc]];
      rewrite Hm.
    + repeat split; auto; try discriminate. intros H. contradiction.
    + repeat split; auto; try discriminate. intros H. contradiction.
  - intros m [-> | [-> | ->]]; reflexivity.
Qed.

Lemma C3_mode_resolution_witness :
  let E := Sample.world (ProbeJson (Sample.one_stream "mp3")) ProbeFailed 0 in
  let st := Sample.start Sample.one_file in
  Cli.resolve_mode E "cbr" ["video.mp4"] st = (Ok "cbr", st)
  /\ exists m,
       Cli.resolve_mode E "auto" ["video.mp4"] st =
       (Ok m, emitted st [EProbe (Cli.info_cmd ["video.mp4"])])
       /\ (m = "copy" <-> "mp3" = "mp3").
Proof.
  intros E st.
  destruct (C3_mode_resolution E ["video.mp4"] st) as [_ [[m [H1 [H2 _]]] H3]].
  - split; reflexivity.
  - exact I.
  - split; [apply H3; auto|]. exists m. split; [exact H1|exact H2].
Defined.

(** C4, as the programs have it.  The encoder invoker of [cli.py] chooses
    the arguments by the mode: copy asks for the stream copy, cbr for the MP3
    encoder with the bitrate, vbr for the MP3 encoder with the quality level,
    and any other mode ends in [SystemExit] before an encoder is started.  The
    invoker of the earlier script knows cbr only: every other mode, copy and
    unknown ones included, takes the MP3 encoder with the quality level, and
    no mode is an error.  In both, the overwrite flag is always passed, as
    [-y] or as [-n], and the command built is the command started. *)
Theorem C4_encoder_arguments (E : env) (i o : Path) (ow : bool) (mode b : string)
    (q : Z) (st : state) (f' : filesystem) :
  let flag := if ow then "-y" else "-n" in
  let head := ["ffmpeg"; "-hide_banner"; "-nostats"; "-i"; PathLib.str i; "-vn"] in
  let cli := head ++ ["-map"; "0:a:0"; "-map_metadata"; "0"] in
  let legacy := head ++ ["-c:a"; "libmp3lame"; "-map_metadata"; "0"] in
  tools_ok E ->
  FS.mkdir_p (fs st) (PathLib.parent o) = Some f' ->
  (mode = "copy" ->
   Cli.build_cmd i o ow mode b q =
   Ok (cli ++ ["-c:a"; "copy"; flag; PathLib.str o]))
  /\ (mode = "cbr" ->
      Cli.build_cmd i o ow mode b q =
      Ok (cli ++ ["-c:a"; "libmp3lame"; "-b:a"; b; flag; PathLib.str o]))
  /\ (mode = "vbr" ->
      Cli.build_cmd i o ow mode b q =
      Ok (cli ++ ["-c:a"; "libmp3lame"; "-q:a"; Py.str_of_int q; flag; PathLib.str o]))
  /\ (mode <> "copy" -> mode <> "cbr" -> mode <> "vbr" ->
      Cli.run_ffmpeg E i o ow mode b q st =
      (Raise (SystemExit ("Unknown mode: " ^^ mode)),
       mkState f' (stdin st) (trace st ++ [EMkdir (PathLib.parent o)])))
  /\ (forall cmd, Cli.build_cmd i o ow mode b q = Ok cmd ->
      exists r, Cli.run_ffmpeg E i o ow mode b q st =
                (r, mkState (snd (ffmpeg E cmd f')) (stdin st)
                      (trace st ++ [EMkdir (PathLib.parent o); EFfmpeg cmd])))
  /\ (mode = "cbr" ->
      Legacy.build_cmd i o ow mode b q =
      legacy ++ ["-b:a"; b; flag; PathLib.str o])
  /\ (mode <> "cbr" ->
      Legacy.build_cmd i o ow mode b q =
      legacy ++ ["-q:a"; Py.str_of_int q; flag; PathLib.str o])
  /\ (exists r, Legacy.run_ffmpeg E i o ow mode b q st =
                (r, mkState (snd (ffmpeg E (Legacy.build_cmd i o ow mode b q) f'))
                      (stdin st)
                      (trace st ++ [EMkdir (PathLib.parent o);
                                    EFfmpeg (Legacy.build_cmd i o ow mode b q)]))).
Proof.
  intros flag head cli legacy Ht Hmk.
  repeat match goal with |- _ /\ _ => split end.
  - intros ->. reflexivity.
  - intros ->. reflexivity.
  - intros ->. reflexivity.
  - intros H1 H2 H3. rewrite (run_ffmpeg_spec E i o ow mode b q st f' Ht Hmk).
    unfold Cli.build_cmd, Cli.mode_args.
    apply String.eqb_neq in H1, H2, H3. rewrite H1, H2, H3. reflexivity.
  - intros cmd Hcmd. rewrite (run_ffmpeg_spec E i o ow mode b q st f' Ht Hmk), Hcmd.
    eauto.
  - intros ->. reflexivity.
  - intros H. unfold Legacy.build_cmd. apply String.eqb_neq in H. rewrite H.
    reflexivity.
  - rewrite (legacy_run_ffmpeg_spec E i o ow mode b q st f' (proj1 Ht) Hmk).
    eauto.
Qed.

Lemma C4_encoder_arguments_witness :
  let E := Sample.world ProbeFailed ProbeFailed 0 in
  let st := Sample.start Sample.one_file in
  Cli.run_ffmpeg E ["video.mp4"] ["video.mp3"] true "auto" "192k" 2 st =
  (Raise (SystemExit "Unknown mode: auto"),
   mkState Sample.one_file [] [EMkdir []])
  /\ Cli.build_cmd ["video.mp4"] ["video.mp3"] true "copy" "192k" 2 =
     Ok ["ffmpeg"; "-hide_banner"; "-nostats"; "-i"; "/video.mp4"; "-vn";
         "-map"; "0:a:0"; "-map_metadata"; "0"; "-c:a"; "copy"; "-y"; "/video.mp3"].
Proof.
  intros E st. split.
  - apply (C4_encoder_arguments E ["video.mp4"] ["video.mp3"] true "auto" "192k" 2
             st Sample.one_file); try discriminate.
    + split; reflexivity.
    + reflexivity.
  - apply (C4_encoder_arguments E ["video.mp4"] ["video.mp3"] true "copy" "192k" 2
             st Sample.one_file).
    + split; reflexivity.
    + reflexivity.
    + reflexivity.
Defined.

(** C4 as stated fails on the earlier script: its invoker, given the mode
    copy, asks for the MP3 encoder at the quality level, not for a stream
    copy; given an unknown mode it starts the encoder all the same. *)
Lemma C4_counterexample :
  Legacy.build_cmd ["video.mp4"] ["video.mp3"] false "copy" "192k" 2 =
  ["ffmpeg"; "-hide_banner"; "-nostats"; "-i"; "/video.mp4"; "-vn";
   "-c:a"; "libmp3lame"; "-map_metadata"; "0"; "-q:a"; "2"; "-n"; "/video.mp3"]
  /\ Legacy.run_ffmpeg (Sample.world ProbeFailed ProbeFailed 0)
       ["video.mp4"] ["video.mp3"] false "flac" "192k" 2
       (Sample.start Sample.one_file) =
     (Ok tt,
      mkState Sample.one_file []
        [EMkdir [];
         EFfmpeg ["ffmpeg"; "-hide_banner"; "-nostats"; "-i"; "/video.mp4"; "-vn";
                  "-c:a"; "libmp3lame"; "-map_metadata"; "0"; "-q:a"; "2"; "-n";
                  "/video.mp3"]]).
Proof. split; vm_compute; reflexivity. Qed.

(** C5.  For a directory input on a file system that lists no path twice,
    the candidate files of both programs are exactly the files below the
    directory whose lower-cased suffix is a video extension, those directly
    in the directory when the scan is not recursive and those at any depth
    when it is; the list is sorted by the order of paths and has no
    duplicates.  In particular a file in a subdirectory is a candidate if and
    only if the scan is recursive. *)
Theorem C5_candidate_file_set (f : filesystem) (in_path : Path) (recursive : bool) :
  FS.wf f ->
  FS.is_dir f in_path = true ->
  candidate_set f in_path recursive
    (Cli.candidate_files f (Cli.iter_inputs_on f in_path recursive))
  /\ candidate_set f in_path recursive
       (Legacy.candidate_files f (Legacy.iter_inputs_on f in_path recursive))
  /\ (forall n m rest,
        let p := in_path ++ n :: m :: rest in
        FS.is_file f p = true ->
        In (Py.lower (PathLib.suffix p)) [".mp4"; ".m4v"; ".mov"] ->
        (In p (Cli.candidate_files f (Cli.iter_inputs_on f in_path recursive))
         <-> recursive = true)).
Proof.
  intros Hwf Hdir.
  assert (Hcli : candidate_set f in_path recursive
                   (Cli.candidate_files f (Cli.iter_inputs_on f in_path recursive))).
  { unfold Cli.candidate_files, Cli.iter_inputs_on. rewrite Hdir.
    apply candidate_set_of_listing.
    - destruct recursive; apply NoDup_filter, NoDup_filter, Hwf.
    - intros p Hf Hv. destruct recursive; rewrite filter_In, Hf, Hv.
      + rewrite <- (rglob_contained f in_path p Hf). tauto.
      + rewrite <- (iterdir_contained f in_path p Hf). tauto. }
  split; [exact Hcli|]. split.
  - unfold Legacy.candidate_files, Legacy.iter_inputs_on. rewrite Hdir.
    apply candidate_set_of_listing.
    + destruct recursive; apply NoDup_filter, NoDup_filter, Hwf.
    + intros p Hf Hv. destruct recursive; rewrite filter_In, ?Hf, Hv.
      * rewrite <- (rglob_contained f in_path p Hf). tauto.
      * rewrite <- (iterdir_contained f in_path p Hf). tauto.
  - intros n m rest p Hf Hv. destruct Hcli as [Hmem _]. rewrite Hmem.
    split.
    + intros [_ [_ [n' [rest' [Heq Hrec]]]]].
      destruct recursive; [reflexivity|]. exfalso.
      unfold p in Heq. apply app_inv_head in Heq.
      rewrite (Hrec eq_refl) in Heq. discriminate.
    + intros ->. repeat split; try assumption.
      exists n, (m :: rest). split; [reflexivity|discriminate].
Qed.

Lemma C5_candidate_file_set_witness :
  candidate_set Sample.tree ["d"] true
    [["d"; "a.mp4"]; ["d"; "b.mov"]; ["d"; "sub"; "c.MP4"]]
  /\ candidate_set Sample.tree ["d"] false [["d"; "a.mp4"]; ["d"; "b.mov"]].
Proof.
  split.
  - apply (C5_candidate_file_set Sample.tree ["d"] true).
    + unfold FS.wf. simpl. repeat constructor; simpl; intuition discriminate.
    + reflexivity.
  - apply (C5_candidate_file_set Sample.tree ["d"] false).
    + unfold FS.wf. simpl. repeat constructor; simpl; intuition discriminate.
    + reflexivity.
Defined.

(** C6.  In both programs, a candidate file whose destination exists while
    overwrite is off is skipped: the loop prints the skip message for the
    destination and goes on with the remaining files in the same file system;
    no probe, no directory creation and no encoder is started for it. *)
Theorem C6_existing_destination_skipped (E : env) (mode : string) (f : Path)
    (rest : list Path) (st : state) :
  (forall args : Cli.Args,
     let out_file := Cli.out_file_of (Cli.arg_out args) f in
     FS.exists_ (fs st) out_file = true ->
     Cli.arg_overwrite args = false ->
     for_each (f :: rest) (Cli.convert_file E args mode) st =
     for_each rest (Cli.convert_file E args mode)
       (emitted st [EPrint ("Skip (exists): " ^^ PathLib.str out_file)]))
  /\ (forall args : Legacy.Args,
        let out_file := Legacy.out_file_of (Legacy.arg_out args) f in
        FS.exists_ (fs st) out_file = true ->
        Legacy.arg_overwrite args = false ->
        for_each (f :: rest) (Legacy.convert_file E args mode) st =
        for_each rest (Legacy.convert_file E args mode)
          (emitted st [EPrint ("Überspringe (existiert): " ^^ PathLib.str out_file)])).
Proof.
  split; intros args out_file Hex Hov; apply for_each_continue.
  - exact (convert_file_skip_exists E args mode f st Hex Hov).
  - exact (legacy_convert_file_skip_exists E args mode f st Hex Hov).
Qed.

Lemma C6_existing_destination_skipped_witness :
  let E := Sample.world ProbeFailed ProbeFailed 0 in
  let args := Cli.mkArgs ["video.mp4"] None "vbr" "192k" 2 false false true in
  let largs := Legacy.mkArgs ["video.mp4"] None false (Some "vbr") "192k" 2 false in
  let st := Sample.start Sample.converted in
  for_each [["video.mp4"]] (Cli.convert_file E args "vbr") st =
  (Ok tt, emitted st [EPrint "Skip (exists): /video.mp3"])
  /\ for_each [["video.mp4"]] (Legacy.convert_file E largs "vbr") st =
     (Ok tt, emitted st [EPrint "Überspringe (existiert): /video.mp3"]).
Proof.
  intros E args largs st. split.
  - exact (proj1 (C6_existing_destination_skipped E "vbr" ["video.mp4"] [] st)
             args eq_refl eq_refl).
  - exact (proj2 (C6_existing_destination_skipped E "vbr" ["video.mp4"] [] st)
             largs eq_refl eq_refl).
Defined.

(** C7.  A candidate file that is not skipped for its destination, whose
    mode resolves (to whatever mode [fm]) and in which no audio stream is
    detected: the loop prints the line of the conversion and the skip message,
    which is not the message of an existing destination, and goes on with the
    remaining files.  Nothing but probes happened: the file system is as it
    was, and no encoder was started. *)
Theorem C7_no_audio_skipped (E : env) (args : Cli.Args) (mode fm : string)
    (f : Path) (rest : list Path) (st st1 : state) :
  let out_file := Cli.out_file_of (Cli.arg_out args) f in
  tools_ok E ->
  FS.exists_ (fs st) out_file && negb (Cli.arg_overwrite args) = false ->
  Cli.resolve_mode E mode f st = (Ok fm, st1) ->
  audio_of_outcome (ffprobe E (Cli.audio_cmd f) (fs st)) = false ->
  (forall st', fs st' = fs st ->
     Cli.has_audio_stream E f st' = (Ok false, emitted st' [EProbe (Cli.audio_cmd f)]))
  /\ for_each (f :: rest) (Cli.convert_file E args mode) st =
     for_each rest (Cli.convert_file E args mode)
       (emitted st1
          [EPrint ("Converting: " ^^ PathLib.str f ^^ " -> " ^^ PathLib.str out_file
                     ^^ " [" ^^ Py.upper fm ^^ "]");
           EProbe (Cli.audio_cmd f);
           EPrint "  No audio stream found, skipping."])
  /\ fs st1 = fs st
  /\ (trace st1 = trace st \/ trace st1 = trace st ++ [EProbe (Cli.info_cmd f)])
  /\ (forall dest, "  No audio stream found, skipping." <> "Skip (exists): " ^^ dest).
Proof.
  intros out_file Ht Hskip Hres Haudio. split; [|split; [|split; [|split]]].
  - intros st' Hfs. rewrite (has_audio_stream_spec E f st' Ht), Hfs, Haudio.
    reflexivity.
  - apply for_each_continue.
    exact (convert_file_no_audio E args mode fm f st st1 Ht Hskip Hres Haudio).
  - apply (resolve_mode_frame E mode f st st1 (Ok fm) Ht Hres).
  - apply (resolve_mode_frame E mode f st st1 (Ok fm) Ht Hres).
  - intros dest. discriminate.
Qed.

Lemma C7_no_audio_skipped_witness :
  let E := Sample.world (ProbeJson Sample.no_stream) (ProbeJson Sample.no_stream) 0 in
  let args := Cli.mkArgs ["d"] None "cbr" "192k" 2 false false true in
  let st := Sample.start Sample.two_files in
  for_each [["d"; "a.mp4"]; ["d"; "b.mp4"]] (Cli.convert_file E args "cbr") st =
  for_each [["d"; "b.mp4"]] (Cli.convert_file E args "cbr")
    (emitted st
       [EPrint "Converting: /d/a.mp4 -> /d/a.mp3 [CBR]";
        EProbe (Cli.audio_cmd ["d"; "a.mp4"]);
        EPrint "  No audio stream found, skipping."]).
Proof.
  intros E args st.
  apply (C7_no_audio_skipped E args "cbr" "cbr" ["d"; "a.mp4"] [["d"; "b.mp4"]] st st).
  - split; reflexivity.
  - reflexivity.
  - reflexivity.
  - reflexivity.
Defined.

(** C8.  With the tools installed the prober [ffprobe_audio_info] always
    returns a Probe Result and never raises: whatever ffprobe answers, the
    only effect is the probe itself.  When the probing process fails, when
    its output is not JSON, or when it reports no audio stream, the result is
    [ProbeInfo()], all of whose fields are null. *)
Theorem C8_prober_total (E : env) (path : Path) (st : state) :
  tools_ok E ->
  let outcome := ffprobe E (Cli.info_cmd path) (fs st) in
  (exists info,
     Cli.ffprobe_audio_info E path st =
     (Ok info, emitted st [EProbe (Cli.info_cmd path)]))
  /\ (outcome = ProbeFailed \/ outcome = ProbeMalformed
      \/ (exists data, outcome = ProbeJson data /\ zero_streams data) ->
      Cli.ffprobe_audio_info E path st =
      (Ok Cli.ProbeInfo_none, emitted st [EProbe (Cli.info_cmd path)]))
  /\ Cli.ProbeInfo_none = Cli.mkProbeInfo JNull None None None.
Proof.
  intros Ht outcome. rewrite (ffprobe_audio_info_spec E path st Ht).
  fold outcome. split; [eauto|]. split; [|reflexivity].
  intros [H|[H|[data [H Hz]]]]; rewrite H; simpl; try reflexivity.
  now rewrite (zero_streams_info E data Hz).
Qed.

Lemma C8_prober_total_witness :
  Cli.ffprobe_audio_info (Sample.world ProbeMalformed ProbeMalformed 0)
    ["video.mp4"] (Sample.start Sample.one_file) =
  (Ok Cli.ProbeInfo_none,
   emitted (Sample.start Sample.one_file) [EProbe (Cli.info_cmd ["video.mp4"])]).
Proof.
  apply (C8_prober_total (Sample.world ProbeMalformed ProbeMalformed 0)
           ["video.mp4"] (Sample.start Sample.one_file)).
  - split; reflexivity.
  - right. left. reflexivity.
Defined.

(** C9.  For an input that is a file, the collector yields that file alone,
    whatever its extension and whatever the recursive flag, and scans
    nothing.  The filter of [main] then keeps it exactly when its lower-cased
    suffix is one of the video extensions.  When it is not, the candidate set
    is empty and a run that passed the check of [--vbr-q] ends in
    [SystemExit] with the message of no files found, naming the input path,
    without any other effect. *)
Theorem C9_single_file_input (E : env) (args : Cli.Args) (st : state) :
  let in_path := Cli.arg_input args in
  FS.is_file (fs st) in_path = true ->
  (forall recursive,
     Cli.iter_inputs_on (fs st) in_path recursive = [in_path]
     /\ Cli.iter_inputs in_path recursive st = (Ok [in_path], st))
  /\ (In (Py.lower (PathLib.suffix in_path)) [".mp4"; ".m4v"; ".mov"] ->
      Cli.candidate_files (fs st) [in_path] = [in_path])
  /\ (~ In (Py.lower (PathLib.suffix in_path)) [".mp4"; ".m4v"; ".mov"] ->
      Cli.candidate_files (fs st) [in_path] = []
      /\ (Cli.vbr_q_rejected args = false ->
          Cli.main E args st =
          (Raise (SystemExit ("No MP4/M4V/MOV files found in: "
                                ^^ PathLib.str in_path)), st))).
Proof.
  intros in_path Hfile.
  destruct (is_file_facts _ _ Hfile) as [Hex Hdir].
  assert (Hiter : forall recursive,
             Cli.iter_inputs_on (fs st) in_path recursive = [in_path]).
  { intros recursive. unfold Cli.iter_inputs_on. now rewrite Hdir. }
  assert (Hrun : forall recursive,
             Cli.iter_inputs in_path recursive st = (Ok [in_path], st)).
  { intros recursive. unfold Cli.iter_inputs, bind, get_fs, ret.
    now rewrite Hdir, Hiter. }
  split; [auto|]. split.
  - intros Hext. apply video_ext_iff in Hext.
    unfold Cli.candidate_files. rewrite sorted_singleton.
    cbn [filter]. now rewrite Hfile, Hext.
  - intros Hnot.
    assert (Hext : video_ext in_path = false).
    { destruct (video_ext in_path) eqn:Hv; [|reflexivity].
      apply video_ext_iff in Hv. contradiction. }
    assert (Hnone : Cli.candidate_files (fs st) [in_path] = []).
    { unfold Cli.candidate_files. rewrite sorted_singleton.
      cbn [filter]. now rewrite Hfile, Hext. }
    split; [exact Hnone|].
    intros Hq. apply main_raise. unfold Cli.prepare. fold in_path.
    unfold bind at 1, get_fs at 1. rewrite Hex. cbn [negb]. rewrite Hq.
    unfold bind at 1. rewrite Hdir. cbn [andb]. unfold ret at 1.
    unfold bind at 1. rewrite Hrun.
    unfold bind at 1, get_fs at 1. rewrite Hnone. reflexivity.
Qed.

Lemma C9_single_file_input_witness :
  let E := Sample.world ProbeFailed ProbeFailed 0 in
  let args := Cli.mkArgs ["notes.txt"] None "auto" "192k" 2 false false true in
  let st := Sample.start Sample.notes_only in
  Cli.iter_inputs_on Sample.notes_only ["notes.txt"] true = [["notes.txt"]]
  /\ Cli.main E args st =
     (Raise (SystemExit "No MP4/M4V/MOV files found in: /notes.txt"), st).
Proof.
  intros E args st.
  destruct (C9_single_file_input E args st eq_refl) as [H1 [_ H3]].
  split.
  - exact (proj1 (H1 true)).
  - apply H3; [|reflexivity].
    cbn. intros [H|[H|[H|[]]]]; discriminate H.
Defined.

(** C10.  The audio check [has_audio_stream] answers false when the probe
    reports no audio stream and also when the probe fails: a probing process
    that exits non-zero or cannot run, and output that is not JSON.  A file
    with such a probe is therefore skipped by the loop as having no audio: it
    is not converted, and the run goes on with the remaining files. *)
Theorem C10_probe_failure_is_no_audio (E : env) (args : Cli.Args)
    (mode fm : string) (f : Path) (rest : list Path) (st st1 : state) :
  let out_file := Cli.out_file_of (Cli.arg_out args) f in
  let outcome := ffprobe E (Cli.audio_cmd f) (fs st) in
  tools_ok E ->
  outcome = ProbeFailed \/ outcome = ProbeMalformed
    \/ (exists data, outcome = ProbeJson data /\ zero_streams data) ->
  Cli.has_audio_stream E f st = (Ok false, emitted st [EProbe (Cli.audio_cmd f)])
  /\ (FS.exists_ (fs st) out_file && negb (Cli.arg_overwrite args) = false ->
      Cli.resolve_mode E mode f st = (Ok fm, st1) ->
      for_each (f :: rest) (Cli.convert_file E args mode) st =
      for_each rest (Cli.convert_file E args mode)
        (emitted st1
           [EPrint ("Converting: " ^^ PathLib.str f ^^ " -> " ^^ PathLib.str out_file
                      ^^ " [" ^^ Py.upper fm ^^ "]");
            EProbe (Cli.audio_cmd f);
            EPrint "  No audio stream found, skipping."])).
Proof.
  intros out_file outcome Ht Hout.
  assert (Haudio : audio_of_outcome outcome = false).
  { destruct Hout as [H|[H|[data [H Hz]]]]; rewrite H; simpl; try reflexivity.
    now rewrite (zero_streams_audio data Hz). }
  split.
  - rewrite (has_audio_stream_spec E f st Ht). fold outcome. now rewrite Haudio.
  - intros Hskip Hres. apply for_each_continue.
    exact (convert_file_no_audio E args mode fm f st st1 Ht Hskip Hres Haudio).
Qed.

Lemma C10_probe_failure_is_no_audio_witness :
  let E := Sample.world (ProbeJson (Sample.one_stream "aac")) ProbeFailed 0 in
  let args := Cli.mkArgs ["d"] None "auto" "192k" 2 false false true in
  let st := Sample.start Sample.two_files in
  Cli.has_audio_stream E ["d"; "a.mp4"] st =
  (Ok false, emitted st [EProbe (Cli.audio_cmd ["d"; "a.mp4"])])
  /\ for_each [["d"; "a.mp4"]; ["d"; "b.mp4"]] (Cli.convert_file E args "auto") st =
     for_each [["d"; "b.mp4"]] (Cli.convert_file E args "auto")
       (emitted st
          [EProbe (Cli.info_cmd ["d"; "a.mp4"]);
           EPrint "Converting: /d/a.mp4 -> /d/a.mp3 [VBR]";
           EProbe (Cli.audio_cmd ["d"; "a.mp4"]);
           EPrint "  No audio stream found, skipping."]).
Proof.
  intros E args st.
  destruct (C10_probe_failure_is_no_audio E args "auto" "vbr" ["d"; "a.mp4"]
              [["d"; "b.mp4"]] st (emitted st [EProbe (Cli.info_cmd ["d"; "a.mp4"])]))
    as [H1 H2].
  - split; reflexivity.
  - left. reflexivity.
  - split; [exact H1|]. apply H2; reflexivity.
Defined.

(* ================================================================= *)
(** ** Further properties: the questions *)












(* ================================================================= *)
(** ** Further properties: reasoning on runs *)

Section Triples.

Variable R : state -> state -> Prop.
Hypothesis R_refl : forall st, R st st.
Hypothesis R_trans : forall a b c, R a b -> R b c -> R a c.

Lemma triple_ret {A} (a : A) (Qok : A -> Prop) (Qexn : exn -> Prop) :
  Qok a -> triple R (ret a) Qok Qexn.
Proof. intros H st r st' Heq. inversion Heq. subst. auto. Qed.

Lemma triple_raise {A} (e : exn) (Qok : A -> Prop) (Qexn : exn -> Prop) :
  Qexn e -> triple R (@raise A e) Qok Qexn.
Proof. intros H st r st' Heq. inversion Heq. subst. auto. Qed.

Lemma triple_lift {A} (r : result A) (Qok : A -> Prop) (Qexn : exn -> Prop) :
  match r with Ok a => Qok a | Raise e => Qexn e end ->
  triple R (lift r) Qok Qexn.
Proof. intros H st r' st' Heq. inversion Heq. subst. auto. Qed.

Lemma triple_get_fs (Qexn : exn -> Prop) :
  triple R get_fs (fun _ => True) Qexn.
Proof. intros st r st' Heq. inversion Heq. subst. auto. Qed.

Lemma triple_bind {A B} (m : M A) (k : A -> M B) (Q1 : A -> Prop)
    (Qok : B -> Prop) (Qexn : exn -> Prop) :
  triple R m Q1 Qexn ->
  (forall a, Q1 a -> triple R (k a) Qok Qexn) ->
  triple R (bind m k) Qok Qexn.
Proof.
  intros Hm Hk st r st' Heq. unfold bind in Heq.
  destruct (m st) as [[a|e] st1] eqn:Hrun.
  - destruct (Hm st _ _ Hrun) as [HR Ha].
    destruct (Hk a Ha st1 _ _ Heq) as [HR' Hr]. eauto.
  - inversion Heq. subst. exact (Hm st _ _ Hrun).
Qed.

Lemma triple_weaken {A} (m : M A) (Q1 Q2 : A -> Prop) (E1 E2 : exn -> Prop) :
  triple R m Q1 E1 ->
  (forall a, Q1 a -> Q2 a) -> (forall e, E1 e -> E2 e) ->
  triple R m Q2 E2.
Proof.
  intros Hm Hq He st r st' Heq. destruct (Hm st r st' Heq) as [HR Hr].
  split; [exact HR|]. destruct r; auto.
Qed.

Lemma triple_try_except {A} (body handler : M A) (Qok : A -> Prop)
    (Qbody Qexn : exn -> Prop) :
  triple R body Qok Qbody ->
  triple R handler Qok Qexn ->
  (forall msg, Qbody (SystemExit msg) -> Qexn (SystemExit msg)) ->
  triple R (try_except body handler) Qok Qexn.
Proof.
  intros Hb Hh Hexit st r st' Heq. unfold try_except in Heq.
  destruct (body st) as [[a|[msg|k]] st1] eqn:Hrun.
  - inversion Heq. subst. exact (Hb st _ _ Hrun).
  - inversion Heq. subst. destruct (Hb st _ _ Hrun) as [HR He]. auto.
  - destruct (Hb st _ _ Hrun) as [HR _].
    destruct (Hh st1 _ _ Heq) as [HR' Hr]. eauto.
Qed.

Lemma triple_for_each {A} (xs : list A) (body : A -> M unit) (Qexn : exn -> Prop) :
  (forall x, In x xs -> triple R (body x) (fun _ => True) Qexn) ->
  triple R (for_each xs body) (fun _ => True) Qexn.
Proof.
  induction xs as [|x xs IH]; intros Hbody.
  - apply triple_ret. exact I.
  - cbn [for_each]. eapply triple_bind.
    + apply Hbody. now left.
    + intros _ _. apply IH. intros y Hy. apply Hbody. now right.
Qed.

End Triples.

Lemma advances_refl (P : event -> Prop) (ki kf : bool) (st : state) :
  advances P ki kf st st.
Proof.
  repeat split; auto. exists []. now rewrite app_nil_r.
Qed.

Lemma advances_trans (P : event -> Prop) (ki kf : bool) (a b c : state) :
  advances P ki kf a b -> advances P ki kf b c -> advances P ki kf a c.
Proof.
  intros [I1 [F1 [e1 [T1 A1]]]] [I2 [F2 [e2 [T2 A2]]]]. repeat split.
  - intros H. rewrite (I2 H). auto.
  - intros H. rewrite (F2 H). auto.
  - exists (e1 ++ e2). rewrite T2, T1, app_assoc. split; [reflexivity|].
    apply Forall_app. auto.
Qed.

Lemma triple_emit (P : event -> Prop) (ki kf : bool) (e : event)
    (Qexn : exn -> Prop) :
  P e -> triple (advances P ki kf) (emit e) (fun _ => True) Qexn.
Proof.
  intros He st r st' Heq. inversion Heq. subst. split; [|exact I].
  repeat split; auto. exists [e]. split; [reflexivity|]. now constructor.
Qed.

Lemma triple_set_fs (P : event -> Prop) (ki : bool) (f : filesystem)
    (Qexn : exn -> Prop) :
  triple (advances P ki false) (set_fs f) (fun _ => True) Qexn.
Proof.
  intros st r st' Heq. inversion Heq. subst. split; [|exact I].
  repeat split; auto; try discriminate. exists []. simpl. now rewrite app_nil_r.
Qed.

Ltac adv_refl := intro; apply advances_refl.
Ltac adv_trans := intros ? ? ?; apply advances_trans.
Ltac adv_bind := eapply triple_bind; [adv_trans | |].

(* ================================================================= *)
(** ** Further properties: the steps of [cli.py] as triples *)

Lemma ensure_tools_cases (E : env) (st : state) :
  (tools_ok E /\ Cli.ensure_tools E st = (Ok tt, st))
  \/ (~ tools_ok E /\
      Cli.ensure_tools E st =
      (Raise (SystemExit
                ((if which E "ffmpeg" then "ffprobe" else "ffmpeg")
                   ^^ " not found. Install via Homebrew: brew install ffmpeg")), st)).
Proof.
  unfold tools_ok, Cli.ensure_tools, Cli.which_or_exit, bind, ret, raise.
  destruct (which E "ffmpeg"), (which E "ffprobe"); simpl; auto;
    right; (split; [intros [H1 H2]; discriminate|reflexivity]).
Qed.

Lemma tool_exit_is_loop_exit (E : env) :
  cli_loop_exit
    (SystemExit ((if which E "ffmpeg" then "ffprobe" else "ffmpeg")
                   ^^ " not found. Install via Homebrew: brew install ffmpeg")).
Proof. destruct (which E "ffmpeg"); constructor. Qed.

Lemma advances_emitted (P : event -> Prop) (ki kf : bool) (st : state)
    (evs : list event) :
  Forall P evs -> advances P ki kf st (emitted st evs).
Proof. intros H. repeat split; auto. exists evs. auto. Qed.

Lemma or_empty_lower_raises (v : json) (e : exn) :
  PyVal.or_empty_lower v = Raise e -> e = Error "AttributeError".
Proof.
  unfold PyVal.or_empty_lower. destruct (PyVal.truthy v); [|discriminate].
  destruct v; intros H; inversion H; reflexivity.
Qed.

Lemma autodetect_mode_triple (E : env) (P : event -> Prop) (ki kf : bool)
    (f : Path) :
  (forall cmd, P (EProbe cmd)) ->
  triple (advances P ki kf) (Cli.autodetect_mode E f)
    (fun m => m = "copy" \/ m = "vbr") cli_loop_exit.
Proof.
  intros HP st r st' Heq.
  destruct (ensure_tools_cases E st) as [[Ht _]|[_ Hno]].
  - rewrite (autodetect_mode_spec E f st Ht) in Heq. inversion Heq. subst.
    split; [apply advances_emitted; repeat constructor; apply HP|].
    destruct (PyVal.or_empty_lower _) as [codec|e] eqn:Hc.
    + destruct (mode_of_codec_cases codec) as [[Hm _]|[Hm _]]; auto.
    + rewrite (or_empty_lower_raises _ _ Hc). constructor.
  - unfold Cli.autodetect_mode, Cli.ffprobe_audio_info, bind in Heq.
    rewrite Hno in Heq. inversion Heq. subst.
    split; [apply advances_refl|apply tool_exit_is_loop_exit].
Qed.

Lemma resolve_mode_triple (E : env) (P : event -> Prop) (ki kf : bool)
    (mode : string) (f : Path) :
  (forall cmd, P (EProbe cmd)) ->
  cli_mode mode ->
  triple (advances P ki kf) (Cli.resolve_mode E mode f)
    (fun m => m = "copy" \/ m = "cbr" \/ m = "vbr") cli_loop_exit.
Proof.
  intros HP [-> | [-> | [-> | ->]]].
  - eapply triple_weaken; [apply (autodetect_mode_triple E P ki kf f HP)| |auto].
    intros m [->| ->]; auto.
  - apply triple_ret; [adv_refl|auto].
  - apply triple_ret; [adv_refl|auto].
  - apply triple_ret; [adv_refl|auto].
Qed.

Lemma has_audio_stream_triple (E : env) (P : event -> Prop) (ki kf : bool)
    (f : Path) :
  (forall cmd, P (EProbe cmd)) ->
  triple (advances P ki kf) (Cli.has_audio_stream E f) (fun _ => True) cli_loop_exit.
Proof.
  intros HP st r st' Heq.
  destruct (ensure_tools_cases E st) as [[Ht _]|[_ Hno]].
  - rewrite (has_audio_stream_spec E f st Ht) in Heq. inversion Heq. subst.
    split; [apply advances_emitted; repeat constructor; apply HP|exact I].
  - unfold Cli.has_audio_stream, bind in Heq.
    rewrite Hno in Heq. inversion Heq. subst.
    split; [apply advances_refl|apply tool_exit_is_loop_exit].
Qed.

Lemma ensure_tools_triple (E : env) (P : event -> Prop) (ki kf : bool) :
  triple (advances P ki kf) (Cli.ensure_tools E) (fun _ => True) cli_loop_exit.
Proof.
  intros st r st' Heq.
  destruct (ensure_tools_cases E st) as [[_ Hok]|[_ Hno]].
  - rewrite Hok in Heq. inversion Heq. subst. split; [apply advances_refl|exact I].
  - rewrite Hno in Heq. inversion Heq. subst.
    split; [apply advances_refl|apply tool_exit_is_loop_exit].
Qed.

Lemma mkdir_triple (E : env) (P : event -> Prop) (ki : bool) (dir : Path) :
  P (EMkdir dir) ->
  triple (advances P ki false) (Cli.mkdir dir) (fun _ => True) cli_loop_exit.
Proof.
  intros HP. unfold Cli.mkdir. adv_bind; [apply triple_emit, HP|]. intros _ _.
  adv_bind; [apply triple_get_fs; adv_refl|]. intros f _.
  destruct (FS.mkdir_p f dir).
  - apply triple_set_fs.
  - apply triple_raise; [adv_refl|constructor].
Qed.

Lemma subprocess_run_triple (E : env) (P : event -> Prop) (ki : bool)
    (cmd : list string) :
  P (EFfmpeg cmd) ->
  triple (advances P ki false) (Cli.subprocess_run E cmd) (fun _ => True)
    cli_loop_exit.
Proof.
  intros HP. unfold Cli.subprocess_run. adv_bind; [apply triple_emit, HP|].
  intros _ _. adv_bind; [apply triple_get_fs; adv_refl|]. intros f _.
  adv_bind; [apply triple_set_fs|]. intros _ _. apply triple_ret; [adv_refl|exact I].
Qed.

Lemma build_cmd_known_mode (i o : Path) (ow : bool) (mode b : string) (q : Z) :
  mode = "copy" \/ mode = "cbr" \/ mode = "vbr" ->
  exists cmd, Cli.build_cmd i o ow mode b q = Ok cmd.
Proof. intros [-> | [-> | ->]]; eexists; reflexivity. Qed.

Lemma run_ffmpeg_triple (E : env) (P : event -> Prop) (ki : bool)
    (i o : Path) (ow : bool) (mode b : string) (q : Z) :
  (forall e, not_input e -> P e) ->
  mode = "copy" \/ mode = "cbr" \/ mode = "vbr" ->
  triple (advances P ki false) (Cli.run_ffmpeg E i o ow mode b q) (fun _ => True)
    cli_loop_exit.
Proof.
  intros HP Hmode. unfold Cli.run_ffmpeg.
  adv_bind; [apply ensure_tools_triple|]. intros _ _.
  adv_bind; [apply (mkdir_triple E); apply HP; exact I|]. intros _ _.
  destruct (build_cmd_known_mode i o ow mode b q Hmode) as [cmd Hcmd].
  rewrite Hcmd.
  adv_bind; [apply triple_lift; [adv_refl|exact I]|]. intros cmd' _.
  adv_bind; [apply subprocess_run_triple; apply HP; exact I|]. intros rc _.
  destruct (negb _).
  - apply triple_raise; [adv_refl|constructor].
  - apply triple_ret; [adv_refl|exact I].
Qed.

Lemma convert_file_triple (E : env) (P : event -> Prop) (ki : bool)
    (args : Cli.Args) (mode : string) (f : Path) :
  (forall e, not_input e -> P e) ->
  cli_mode mode ->
  triple (advances P ki false) (Cli.convert_file E args mode f) (fun _ => True)
    cli_loop_exit.
Proof.
  intros HP Hmode. unfold Cli.convert_file.
  adv_bind; [apply triple_get_fs; adv_refl|]. intros cur _.
  destruct (FS.exists_ cur _ && negb (Cli.arg_overwrite args)).
  - apply triple_emit, HP. exact I.
  - adv_bind; [apply resolve_mode_triple;
               [intros cmd; apply HP; exact I|exact Hmode]|].
    intros fm Hfm.
    adv_bind; [apply triple_emit, HP; exact I|]. intros _ _.
    adv_bind; [apply has_audio_stream_triple; intros cmd; apply HP; exact I|].
    intros has _. destruct (negb has).
    + apply triple_emit, HP. exact I.
    + adv_bind; [apply run_ffmpeg_triple; [exact HP|exact Hfm]|]. intros _ _.
      apply triple_emit, HP. exact I.
Qed.

Lemma cli_ask_yes_no_loop_run (question : string) (default : bool)
    (lines : list string) (tr : list event) :
  (exists evs,
     snd (Cli.ask_yes_no_loop question default lines tr) = tr ++ evs
     /\ Forall terminal_event evs)
  /\ (forall e,
        fst (fst (Cli.ask_yes_no_loop question default lines tr)) = Raise e ->
        e = Error "EOFError").
Proof.
  revert tr. induction lines as [|line rest IH]; intros tr;
    cbn [Cli.ask_yes_no_loop].
  - split; [exists [EInput question]; split; [reflexivity|repeat constructor]|].
    intros e H. now inversion H.
  - destruct (String.eqb _ "");
      [split; [exists [EInput question]; split; [reflexivity|repeat constructor]
              |discriminate]|].
    destruct (Py.mem _ ["y"; "yes"; "j"; "ja"]);
      [split; [exists [EInput question]; split; [reflexivity|repeat constructor]
              |discriminate]|].
    destruct (Py.mem _ ["n"; "no"; "nein"]);
      [split; [exists [EInput question]; split; [reflexivity|repeat constructor]
              |discriminate]|].
    match goal with
    | |- context [Cli.ask_yes_no_loop _ _ _ ((tr ++ [?a]) ++ [?b])] =>
        destruct (IH ((tr ++ [a]) ++ [b])) as [[evs [H Hall]] He];
        split; [|exact He];
        exists (a :: b :: evs); rewrite H, <- !app_assoc; split;
        [reflexivity|repeat constructor; exact Hall]
    end.
Qed.

Lemma cli_ask_choice_loop_run (question : string) (keys : list string)
    (default_key : string) (lines : list string) (tr : list event) :
  (exists evs,
     snd (Cli.ask_choice_loop question keys default_key lines tr) = tr ++ evs
     /\ Forall terminal_event evs)
  /\ (forall e,
        fst (fst (Cli.ask_choice_loop question keys default_key lines tr)) = Raise e ->
        e = Error "EOFError")
  /\ (forall c,
        fst (fst (Cli.ask_choice_loop question keys default_key lines tr)) = Ok c ->
        c = default_key \/ In c keys).
Proof.
  revert tr. induction lines as [|line rest IH]; intros tr;
    cbn [Cli.ask_choice_loop].
  - split; [exists [EInput question]; split; [reflexivity|repeat constructor]|].
    split; [intros e H; now inversion H|discriminate].
  - destruct (String.eqb _ "").
    { split; [exists [EInput question]; split; [reflexivity|repeat constructor]|].
      split; [discriminate|]. intros c H. inversion H. auto. }
    destruct (Py.mem _ keys) eqn:Hm.
    { split; [exists [EInput question]; split; [reflexivity|repeat constructor]|].
      split; [discriminate|]. intros c H. inversion H. subst. right.
      unfold Py.mem in Hm. apply existsb_exists in Hm.
      destruct Hm as [x [Hin Heq]]. apply String.eqb_eq in Heq. now subst. }
    match goal with
    | |- context [Cli.ask_choice_loop _ _ _ _ ((tr ++ [?a]) ++ [?b])] =>
        destruct (IH ((tr ++ [a]) ++ [b])) as [[evs [H Hall]] He];
        split; [|exact He];
        exists (a :: b :: evs); rewrite H, <- !app_assoc; split;
        [reflexivity|repeat constructor; exact Hall]
    end.
Qed.

Lemma cli_ask_yes_no_triple (P : event -> Prop) (kf : bool) (prompt : string)
    (default : bool) :
  (forall e, terminal_event e -> P e) ->
  triple (advances P false kf) (Cli.ask_yes_no prompt default) (fun _ => True)
    (fun e => e = Error "EOFError").
Proof.
  intros HP st r st' Heq. unfold Cli.ask_yes_no in Heq.
  match type of Heq with
  | context [Cli.ask_yes_no_loop ?q ?d ?l ?t] =>
      destruct (cli_ask_yes_no_loop_run q d l t) as [[evs [H Hall]] He];
      destruct (Cli.ask_yes_no_loop q d l t) as [[r0 lines] tr]
  end.
  simpl in H, He. inversion Heq. subst. split.
  - repeat split; try discriminate; auto. exists evs. split; [reflexivity|].
    eapply Forall_impl; [|exact Hall]. exact HP.
  - destruct r; [exact I|]. now apply He.
Qed.

Lemma cli_ask_choice_triple (P : event -> Prop) (kf : bool) (prompt : string)
    (choices : list (string * string)) (default_key label : string) :
  (forall e, terminal_event e -> P e) ->
  Py.assoc default_key choices = Some label ->
  triple (advances P false kf) (Cli.ask_choice prompt choices default_key)
    (fun c => c = default_key \/ In c (map fst choices))
    (fun e => e = Error "EOFError").
Proof.
  intros HP Hlabel st r st' Heq. unfold Cli.ask_choice in Heq.
  rewrite Hlabel in Heq.
  match type of Heq with
  | context [Cli.ask_choice_loop ?q ?k ?d ?l ?t] =>
      destruct (cli_ask_choice_loop_run q k d l t) as [[evs [H Hall]] [He Hc]];
      destruct (Cli.ask_choice_loop q k d l t) as [[r0 lines] tr]
  end.
  simpl in H, He, Hc. inversion Heq. subst. split.
  - repeat split; try discriminate; auto. exists evs. split; [reflexivity|].
    eapply Forall_impl; [|exact Hall]. exact HP.
  - destruct r; [now apply Hc|now apply He].
Qed.

Lemma choose_mode_triple (P : event -> Prop) (ki kf : bool) (args : Cli.Args) :
  prompting_allowed P ki args ->
  cli_mode (Cli.arg_mode args) ->
  triple (advances P ki kf) (Cli.choose_mode args)
    (fun m => cli_mode m
              /\ (m = "copy" -> Cli.arg_mode args = "copy")
              /\ (Cli.arg_mode args <> "auto" -> m = Cli.arg_mode args))
    (cli_prepare_exit args).
Proof.
  intros Hprompt Hmode. unfold Cli.choose_mode.
  destruct (String.eqb_spec (Cli.arg_mode args) "auto") as [Hauto|Hauto].
  - destruct (Cli.arg_no_prompt args) eqn:Hnp.
    + apply triple_ret; [adv_refl|]. unfold cli_mode. rewrite Hauto.
      split; [auto|]. split; [intros H; discriminate H|]. intros H. now elim H.
    + destruct Hprompt as [Hp|[-> HP]]; [congruence|].
      adv_bind.
      * eapply triple_weaken;
          [apply (cli_ask_choice_triple P kf
                    "Encoding mode? (auto detects via ffprobe)"
                    [("a", "AUTO"); ("c", "CBR"); ("v", "VBR")] "a" "AUTO" HP eq_refl)
          |intros c Hc; exact Hc
          |intros e ->; constructor].
      * intros c Hc.
        assert (Hkey : c = "a" \/ c = "c" \/ c = "v").
        { cbn in Hc. intuition. }
        unfold cli_mode. rewrite Hauto.
        destruct Hkey as [-> | [-> | ->]]; cbn;
          (apply triple_ret; [adv_refl|]);
          (split; [auto|]); (split; [intros H; discriminate H|]);
          intros H; now elim H.
  - apply triple_ret; [adv_refl|]. repeat split; auto.
Qed.

Lemma iter_inputs_triple (P : event -> Prop) (ki kf : bool) (in_path : Path)
    (recursive : bool) (Qexn : exn -> Prop) :
  (forall d r, P (EScan d r)) ->
  triple (advances P ki kf) (Cli.iter_inputs in_path recursive) (fun _ => True) Qexn.
Proof.
  intros HP. unfold Cli.iter_inputs.
  adv_bind; [apply triple_get_fs; adv_refl|]. intros f _.
  adv_bind.
  - destruct (FS.is_dir f in_path);
      [apply triple_emit, HP|apply triple_ret; [adv_refl|exact I]].
  - intros _ _. apply triple_ret; [adv_refl|exact I].
Qed.

Lemma vbr_q_accepted (args : Cli.Args) :
  Cli.vbr_q_rejected args = false ->
  Cli.arg_mode args = "vbr" ->
  (0 <= Cli.arg_vbr_q args <= 9)%Z.
Proof.
  unfold Cli.vbr_q_rejected. intros Hrej Hvbr. rewrite Hvbr in Hrej.
  simpl in Hrej. apply negb_false_iff, andb_true_iff in Hrej.
  destruct Hrej as [H1 H2]. apply Z.leb_le in H1, H2. lia.
Qed.

Lemma prepare_triple (P : event -> Prop) (ki kf : bool) (args : Cli.Args) :
  (forall d r, P (EScan d r)) ->
  prompting_allowed P ki args ->
  cli_mode (Cli.arg_mode args) ->
  triple (advances P ki kf) (Cli.prepare args) (cli_plan_ok args)
    (cli_prepare_exit args).
Proof.
  intros HP Hprompt Hmode. unfold Cli.prepare.
  adv_bind; [apply triple_get_fs; adv_refl|]. intros f0 _.
  destruct (negb (FS.exists_ f0 (Cli.arg_input args)));
    [apply triple_raise; [adv_refl|constructor]|].
  destruct (Cli.vbr_q_rejected args) eqn:Hrej;
    [apply triple_raise; [adv_refl|constructor]|].
  adv_bind.
  - instantiate (1 := fun _ => True).
    destruct (FS.is_dir f0 _ && negb (Cli.arg_recursive args)
              && negb (Cli.arg_no_prompt args)) eqn:Hask.
    + destruct Hprompt as [Hnp|[-> HPt]].
      * rewrite Hnp, andb_false_r in Hask. discriminate.
      * eapply triple_weaken;
          [apply (cli_ask_yes_no_triple P kf _ _ HPt)|auto|intros e ->; constructor].
    + apply triple_ret; [adv_refl|exact I].
  - intros recursive _.
    adv_bind; [apply iter_inputs_triple, HP|]. intros found _.
    adv_bind; [apply triple_get_fs; adv_refl|]. intros f1 _.
    destruct (Cli.candidate_files f1 found) as [|p files] eqn:Hfiles;
      [apply triple_raise; [adv_refl|constructor]|].
    adv_bind; [apply (choose_mode_triple P ki kf args Hprompt Hmode)|].
    intros m [Hm [Hcopy Hflag]]. apply triple_ret; [adv_refl|].
    unfold cli_plan_ok. cbn [fst snd].
    split; [discriminate|]. split; [exact Hm|]. split; [exact Hcopy|].
    split; [exact Hflag|]. intros Hvbr. now apply vbr_q_accepted.
Qed.

Lemma main_triple (E : env) (P : event -> Prop) (ki : bool) (args : Cli.Args) :
  (forall e, not_input e -> P e) ->
  prompting_allowed P ki args ->
  cli_mode (Cli.arg_mode args) ->
  triple (advances P ki false) (Cli.main E args) (fun _ => True)
    (fun e => cli_prepare_exit args e \/ cli_loop_exit e).
Proof.
  intros HP Hprompt Hmode. unfold Cli.main. adv_bind.
  - eapply triple_weaken;
      [apply (prepare_triple P ki false args); auto|intros plan H; exact H|auto].
    intros d r. apply HP. exact I.
  - intros [files mode] [_ [Hm _]]. cbn [fst snd] in *.
    apply triple_for_each; [adv_refl|adv_trans|]. intros f _.
    eapply triple_weaken;
      [apply (convert_file_triple E P ki args mode f HP Hm)|auto|auto].
Qed.

(* ================================================================= *)
(** ** Further properties: the steps of the earlier script as triples *)

Lemma legacy_ask_yes_no_loop_run (question : string) (default : bool)
    (lines : list string) (tr : list event) :
  (exists evs,
     snd (Legacy.ask_yes_no_loop question default lines tr) = tr ++ evs
     /\ Forall terminal_event evs)
  /\ (forall e,
        fst (fst (Legacy.ask_yes_no_loop question default lines tr)) = Raise e ->
        e = Error "EOFError").
Proof.
  split; [apply legacy_ask_yes_no_loop_frame|].
  revert tr. induction lines as [|line rest IH]; intros tr;
    cbn [Legacy.ask_yes_no_loop].
  - intros e H. now inversion H.
  - destruct (String.eqb _ ""); [discriminate|].
    destruct (Py.mem _ ["y"; "yes"; "j"; "ja"]); [discriminate|].
    destruct (Py.mem _ ["n"; "no"; "nein"]); [discriminate|].
    apply IH.
Qed.

Lemma legacy_ask_choice_loop_run (question : string) (keys : list string)
    (default_key : string) (lines : list string) (tr : list event) :
  (exists evs,
     snd (Legacy.ask_choice_loop question keys default_key lines tr) = tr ++ evs
     /\ Forall terminal_event evs)
  /\ (forall e,
        fst (fst (Legacy.ask_choice_loop question keys default_key lines tr)) = Raise e ->
        e = Error "EOFError").
Proof.
  split; [apply legacy_ask_choice_loop_frame|].
  revert tr. induction lines as [|line rest IH]; intros tr;
    cbn [Legacy.ask_choice_loop].
  - intros e H. now inversion H.
  - destruct (String.eqb _ ""); [discriminate|].
    destruct (Py.mem _ keys); [discriminate|].
    apply IH.
Qed.

Lemma legacy_ask_yes_no_triple (P : event -> Prop) (kf : bool) (prompt : string)
    (default : bool) :
  (forall e, terminal_event e -> P e) ->
  triple (advances P false kf) (Legacy.ask_yes_no prompt default) (fun _ => True)
    (fun e => e = Error "EOFError").
Proof.
  intros HP st r st' Heq. unfold Legacy.ask_yes_no in Heq.
  match type of Heq with
  | context [Legacy.ask_yes_no_loop ?q ?d ?l ?t] =>
      destruct (legacy_ask_yes_no_loop_run q d l t) as [[evs [H Hall]] He];
      destruct (Legacy.ask_yes_no_loop q d l t) as [[r0 lines] tr]
  end.
  simpl in H, He. inversion Heq. subst. split.
  - repeat split; try discriminate; auto. exists evs. split; [reflexivity|].
    eapply Forall_impl; [|exact Hall]. exact HP.
  - destruct r; [exact I|]. now apply He.
Qed.

Lemma legacy_choose_mode_triple (P : event -> Prop) (kf : bool)
    (args : Legacy.Args) :
  (forall e, terminal_event e -> P e) ->
  legacy_mode_flag (Legacy.arg_mode args) ->
  triple (advances P false kf) (Legacy.choose_mode args)
    (fun m => m = "cbr" \/ m = "vbr") (legacy_exit args).
Proof.
  intros HP Hflag. unfold Legacy.choose_mode.
  destruct Hflag as [-> | [-> | ->]].
  - adv_bind.
    + instantiate (1 := fun _ => True).
      intros st r st' Heq. unfold Legacy.ask_choice in Heq.
      cbn [Py.assoc String.eqb Ascii.eqb Bool.eqb] in Heq.
      match type of Heq with
      | context [Legacy.ask_choice_loop ?q ?k ?d ?l ?t] =>
          destruct (legacy_ask_choice_loop_run q k d l t) as [[evs [H Hall]] He];
          destruct (Legacy.ask_choice_loop q k d l t) as [[r0 lines] tr]
      end.
      simpl in H, He. inversion Heq. subst. split.
      * repeat split; try discriminate; auto. exists evs. split; [reflexivity|].
        eapply Forall_impl; [|exact Hall]. exact HP.
      * destruct r; [exact I|]. rewrite (He e eq_refl). constructor.
    + intros choice _. apply triple_ret; [adv_refl|].
      destruct (String.eqb choice "c"); auto.
  - apply triple_ret; [adv_refl|auto].
  - apply triple_ret; [adv_refl|auto].
Qed.

Lemma legacy_iter_inputs_triple (P : event -> Prop) (ki kf : bool) (in_path : Path)
    (recursive : bool) (Qexn : exn -> Prop) :
  (forall d r, P (EScan d r)) ->
  triple (advances P ki kf) (Legacy.iter_inputs in_path recursive) (fun _ => True) Qexn.
Proof.
  intros HP. unfold Legacy.iter_inputs.
  adv_bind; [apply triple_get_fs; adv_refl|]. intros f _.
  adv_bind.
  - destruct (FS.is_dir f in_path);
      [apply triple_emit, HP|apply triple_ret; [adv_refl|exact I]].
  - intros _ _. apply triple_ret; [adv_refl|exact I].
Qed.

Lemma legacy_vbr_q_accepted (args : Legacy.Args) :
  Legacy.vbr_q_rejected "vbr" args = false ->
  (0 <= Legacy.arg_vbr_q args <= 9)%Z.
Proof.
  unfold Legacy.vbr_q_rejected. intros Hrej.
  simpl in Hrej. apply negb_false_iff, andb_true_iff in Hrej.
  destruct Hrej as [H1 H2]. apply Z.leb_le in H1, H2. lia.
Qed.

Lemma legacy_prepare_triple (P : event -> Prop) (kf : bool) (args : Legacy.Args) :
  (forall e, no_process e -> P e) ->
  legacy_mode_flag (Legacy.arg_mode args) ->
  triple (advances P false kf) (Legacy.prepare args) (legacy_plan_ok args)
    (legacy_exit args).
Proof.
  intros HP Hflag.
  assert (HPt : forall e, terminal_event e -> P e).
  { intros e He. apply HP. destruct e; auto; contradiction. }
  unfold Legacy.prepare.
  adv_bind; [apply triple_get_fs; adv_refl|]. intros f0 _.
  destruct (negb (FS.exists_ f0 (Legacy.arg_input args)));
    [apply triple_raise; [adv_refl|constructor]|].
  adv_bind; [apply (legacy_choose_mode_triple P kf args HPt Hflag)|].
  intros mode Hmode.
  adv_bind.
  - instantiate (1 := fun _ => True).
    destruct (FS.is_dir f0 _ && negb (Legacy.arg_recursive args)).
    + eapply triple_weaken;
        [apply (legacy_ask_yes_no_triple P kf _ _ HPt)|auto|intros e ->; constructor].
    + apply triple_ret; [adv_refl|exact I].
  - intros recursive _.
    destruct (Legacy.vbr_q_rejected mode args) eqn:Hrej;
      [apply triple_raise; [adv_refl|constructor]|].
    adv_bind; [apply legacy_iter_inputs_triple; intros d r; apply HP; exact I|].
    intros found _.
    adv_bind; [apply triple_get_fs; adv_refl|]. intros f1 _.
    destruct (Legacy.candidate_files f1 found) as [|p files] eqn:Hfiles;
      [apply triple_raise; [adv_refl|constructor]|].
    apply triple_ret; [adv_refl|].
    unfold legacy_plan_ok. cbn [fst snd].
    split; [discriminate|]. split; [exact Hmode|].
    intros ->. now apply legacy_vbr_q_accepted.
Qed.




(* ================================================================= *)
(** ** Further properties: whole runs *)



(** X4.  A run of [cli.py] with [--no-prompt] asks nothing: whatever the
    files, the tools and the outcome, it shows no prompt and the pending input
    is left as it was. *)
Theorem X4_no_prompt_asks_nothing (E : env) (args : Cli.Args) (st : state) :
  cli_mode (Cli.arg_mode args) ->
  Cli.arg_no_prompt args = true ->
  stdin (snd (Cli.main E args st)) = stdin st
  /\ exists evs,
       trace (snd (Cli.main E args st)) = trace st ++ evs
       /\ Forall not_input evs.
Proof.
  intros Hmode Hnp.
  destruct (Cli.main E args st) as [r st'] eqn:Hrun.
  destruct (main_triple E not_input true args (fun e H => H) (or_introl Hnp)
              Hmode st r st' Hrun) as [[Hin [_ Hev]] _].
  cbn [snd]. split; [now apply Hin|exact Hev].
Qed.

Lemma X4_no_prompt_asks_nothing_witness :
  let E := Sample.world (ProbeJson (Sample.one_stream "aac"))
             (ProbeJson Sample.indexed_stream) 0 in
  let args := Cli.mkArgs ["d"] None "auto" "192k" 2 false false true in
  let st := mkState Sample.two_files ["y"; "c"] [] in
  stdin (snd (Cli.main E args st)) = ["y"; "c"].
Proof.
  intros E args st.
  exact (proj1 (X4_no_prompt_asks_nothing E args st (or_introl eq_refl) eq_refl)).
Defined.

(** X5.  The preparation of [cli.py]'s [main], everything before its loop.
    It changes nothing in the file system and starts no process: it only
    prompts, prints and scans.  When it ends without an exception there is at
    least one candidate file; the mode of the run is one argparse admits; it
    is copy only when [--mode copy] was given (the question offers auto, cbr
    and vbr); a mode given by flag other than auto is kept; and after
    [--mode vbr] the quality level is within 0..9.  When it raises, the
    exception is one of the four of the preparation. *)
Theorem X5_cli_preparation (args : Cli.Args) (st : state) :
  cli_mode (Cli.arg_mode args) ->
  fs (snd (Cli.prepare args st)) = fs st
  /\ (exists evs,
        trace (snd (Cli.prepare args st)) = trace st ++ evs
        /\ Forall no_process evs)
  /\ match fst (Cli.prepare args st) with
     | Ok plan => cli_plan_ok args plan
     | Raise e => cli_prepare_exit args e
     end.
Proof.
  intros Hmode.
  destruct (Cli.prepare args st) as [r st'] eqn:Hrun.
  destruct (prepare_triple no_process false true args) with (st := st) (r := r)
    (st' := st') as [[_ [Hfs Hev]] Hr]; auto.
  - intros d r0. exact I.
  - right. split; [reflexivity|]. intros e He. destruct e; auto; contradiction.
Qed.

Lemma X5_cli_preparation_witness :
  let args := Cli.mkArgs ["d"] None "auto" "192k" 2 false false false in
  let st := mkState Sample.two_files ["n"; "V"] [] in
  fs (snd (Cli.prepare args st)) = Sample.two_files
  /\ fst (Cli.prepare args st) = Ok ([["d"; "a.mp4"]; ["d"; "b.mp4"]], "vbr").
Proof.
  intros args st. split.
  - exact (proj1 (X5_cli_preparation args st (or_introl eq_refl))).
  - reflexivity.
Defined.

(** X6.  The preparation of the earlier script's [main].  It changes
    nothing in the file system and starts no process.  When it ends without
    an exception there is at least one candidate file, the mode of the run is
    cbr or vbr, and in the mode vbr, whether given by flag or chosen at the
    question, the quality level is within 0..9. *)
Theorem X6_legacy_preparation (args : Legacy.Args) (st : state) :
  legacy_mode_flag (Legacy.arg_mode args) ->
  fs (snd (Legacy.prepare args st)) = fs st
  /\ (exists evs,
        trace (snd (Legacy.prepare args st)) = trace st ++ evs
        /\ Forall no_process evs)
  /\ match fst (Legacy.prepare args st) with
     | Ok plan => legacy_plan_ok args plan
     | Raise e => legacy_exit args e
     end.
Proof.
  intros Hflag.
  destruct (Legacy.prepare args st) as [r st'] eqn:Hrun.
  destruct (legacy_prepare_triple no_process true args (fun e H => H) Hflag
              st r st' Hrun) as [[_ [Hfs Hev]] Hr].
  cbn [fst snd]. auto.
Qed.

Lemma X6_legacy_preparation_witness :
  let args := Legacy.mkArgs ["d"] None false None "192k" 7 false in
  let st := mkState Sample.two_files [""; "no"] [] in
  fs (snd (Legacy.prepare args st)) = Sample.two_files
  /\ fst (Legacy.prepare args st) = Ok ([["d"; "a.mp4"]; ["d"; "b.mp4"]], "vbr").
Proof.
  intros args st. split.
  - exact (proj1 (X6_legacy_preparation args st (or_introl eq_refl))).
  - reflexivity.
Defined.



(* ================================================================= *)
(** ** Further properties: the tools and the probes *)

(** X8.  A missing tool.  When ffmpeg or ffprobe is not installed, each of
    [ffprobe_audio_info], [has_audio_stream] and [run_ffmpeg] raises
    [SystemExit] naming the tool (ffmpeg first) before it does anything: no
    process is started and no directory created.  Both tools are asked for by
    all three, so a missing ffprobe also stops a conversion in an explicit
    mode, which the loop reports after the line of the conversion. *)
Theorem X8_missing_tool (E : env) (st : state) :
  ~ tools_ok E ->
  let missing :=
    SystemExit ((if which E "ffmpeg" then "ffprobe" else "ffmpeg")
                  ^^ " not found. Install via Homebrew: brew install ffmpeg") in
  (forall p, Cli.ffprobe_audio_info E p st = (Raise missing, st))
  /\ (forall p, Cli.has_audio_stream E p st = (Raise missing, st))
  /\ (forall i o ow mode b q,
        Cli.run_ffmpeg E i o ow mode b q st = (Raise missing, st))
  /\ (forall args mode f rest,
        FS.exists_ (fs st) (Cli.out_file_of (Cli.arg_out args) f)
          && negb (Cli.arg_overwrite args) = false ->
        for_each (f :: rest) (Cli.convert_file E args mode) st =
        (Raise missing,
         if String.eqb mode "auto" then st
         else emitted st
                [EPrint ("Converting: " ^^ PathLib.str f ^^ " -> "
                           ^^ PathLib.str (Cli.out_file_of (Cli.arg_out args) f)
                           ^^ " [" ^^ Py.upper mode ^^ "]")])).
Proof.
  intros Hno missing.
  assert (Hens : forall s, Cli.ensure_tools E s = (Raise missing, s)).
  { intros s. destruct (ensure_tools_cases E s) as [[Ht _]|[_ H]];
      [contradiction|exact H]. }
  assert (Hinfo : forall p s, Cli.ffprobe_audio_info E p s = (Raise missing, s)).
  { intros p s. unfold Cli.ffprobe_audio_info, bind. now rewrite Hens. }
  assert (Haudio : forall p s, Cli.has_audio_stream E p s = (Raise missing, s)).
  { intros p s. unfold Cli.has_audio_stream, bind. now rewrite Hens. }
  split; [auto|]. split; [auto|]. split.
  - intros i o ow mode b q. unfold Cli.run_ffmpeg, bind. now rewrite Hens.
  - intros args mode f rest Hskip. apply for_each_raise.
    unfold Cli.convert_file, bind at 1. unfold get_fs at 1. rewrite Hskip.
    unfold Cli.resolve_mode. destruct (String.eqb mode "auto").
    + unfold bind at 1, Cli.autodetect_mode, bind at 1. now rewrite Hinfo.
    + unfold bind at 1, ret at 1. unfold bind at 1, print at 1, emit at 1.
      unfold bind at 1. now rewrite Haudio.
Qed.

Lemma X8_missing_tool_witness :
  let args := Cli.mkArgs ["video.mp4"] None "copy" "192k" 2 false false true in
  for_each [["video.mp4"]] (Cli.convert_file Scenario.no_ffprobe args "copy")
    (Sample.start Sample.one_file) =
  (Raise (SystemExit "ffprobe not found. Install via Homebrew: brew install ffmpeg"),
   mkState Sample.one_file []
     [EPrint "Converting: /video.mp4 -> /video.mp3 [COPY]"]).
Proof.
  intros args.
  apply (X8_missing_tool Scenario.no_ffprobe (Sample.start Sample.one_file)).
  - intros [_ H]. discriminate H.
  - reflexivity.
Defined.

Lemma opt_int_raises (E : env) (s : list (string * json)) (k : string) (v : json) :
  Py.assoc k s = Some v ->
  PyVal.truthy v = true ->
  (forall n, PyVal.to_int (int_of_str E) v <> Ok n) ->
  exists e, Cli.opt_int E (JObj s) k = Raise e.
Proof.
  intros Hk Ht Hint. unfold Cli.opt_int. simpl. rewrite Hk. simpl. rewrite Ht.
  destruct (PyVal.to_int (int_of_str E) v) as [n|e] eqn:Hv.
  - elim (Hint n). reflexivity.
  - exists e. reflexivity.
Qed.

(** X9.  A number the prober cannot read discards the whole probe.  When
    the first stream reports a bit rate, a channel count or a sample rate that
    is truthy but that [int] rejects (ffprobe prints N/A for an unknown bit
    rate), [ffprobe_audio_info] returns [ProbeInfo()]: the codec name is lost
    with it, and the mode auto resolves to vbr whatever the codec, mp3
    included. *)
Theorem X9_unreadable_number_discards_probe (E : env) (f : Path) (st : state)
    (fields stream : list (string * json)) (more : list json)
    (key : string) (v : json) :
  tools_ok E ->
  ffprobe E (Cli.info_cmd f) (fs st) = ProbeJson (JObj fields) ->
  Py.assoc "streams" fields = Some (JArr (JObj stream :: more)) ->
  In key ["bit_rate"; "channels"; "sample_rate"] ->
  Py.assoc key stream = Some v ->
  PyVal.truthy v = true ->
  (forall n, PyVal.to_int (int_of_str E) v <> Ok n) ->
  Cli.ffprobe_audio_info E f st =
  (Ok Cli.ProbeInfo_none, emitted st [EProbe (Cli.info_cmd f)])
  /\ Cli.resolve_mode E "auto" f st =
     (Ok "vbr", emitted st [EProbe (Cli.info_cmd f)]).
Proof.
  intros Ht Hout Hstreams Hkey Hv Htruthy Hint.
  assert (Hraise : exists e, Cli.first_stream_info E (JObj fields) = Raise e).
  { destruct (opt_int_raises E stream key v Hv Htruthy Hint) as [e He].
    unfold Cli.first_stream_info. simpl. rewrite Hstreams. simpl.
    destruct (Py.assoc "codec_name" stream); simpl;
      destruct Hkey as [<-|[<-|[<-|[]]]];
      repeat match goal with
        | |- context [Cli.opt_int E (JObj stream) ?k] =>
            first [rewrite He
                  |destruct (Cli.opt_int E (JObj stream) k) as [?|?]; simpl]
        end; eauto. }
  destruct Hraise as [e He].
  assert (Hinfo : info_of_outcome E (ffprobe E (Cli.info_cmd f) (fs st))
                  = Cli.ProbeInfo_none).
  { rewrite Hout. unfold info_of_outcome. now rewrite He. }
  split.
  - rewrite (ffprobe_audio_info_spec E f st Ht). now rewrite Hinfo.
  - change (Cli.resolve_mode E "auto" f st) with (Cli.autodetect_mode E f st).
    rewrite (autodetect_mode_spec E f st Ht). now rewrite Hinfo.
Qed.

Lemma X9_unreadable_number_discards_probe_witness :
  let E := Sample.world (ProbeJson Scenario.stream_without_bitrate)
             (ProbeJson Sample.indexed_stream) 0 in
  let st := Sample.start Sample.one_file in
  Cli.resolve_mode E "auto" ["video.mp4"] st =
  (Ok "vbr", emitted st [EProbe (Cli.info_cmd ["video.mp4"])]).
Proof.
  intros E st.
  apply (X9_unreadable_number_discards_probe E ["video.mp4"] st
           [("streams",
             JArr [JObj [("codec_name", JStr "mp3"); ("bit_rate", JStr "N/A")]])]
           [("codec_name", JStr "mp3"); ("bit_rate", JStr "N/A")] []
           "bit_rate" (JStr "N/A")).
  - split; reflexivity.
  - reflexivity.
  - reflexivity.
  - left. reflexivity.
  - reflexivity.
  - reflexivity.
  - intros n H. discriminate H.
Defined.

(** X10.  What [autodetect_mode] makes of the codec name.  With the tools
    installed it probes once and then returns copy or vbr whenever the codec
    name is a string, absent, or any falsy value; a codec name that is truthy
    and not a string (a number, true, a non-empty list or object) raises
    [AttributeError], which nothing catches: a run in the mode auto ends
    there. *)
Theorem X10_autodetect_outcomes (E : env) (f : Path) (st : state) :
  tools_ok E ->
  let name := Cli.codec_name (info_of_outcome E (ffprobe E (Cli.info_cmd f) (fs st))) in
  let probed := emitted st [EProbe (Cli.info_cmd f)] in
  (text_or_none name \/ PyVal.truthy name = false ->
   exists m, Cli.autodetect_mode E f st = (Ok m, probed)
             /\ (m = "copy" \/ m = "vbr"))
  /\ (~ text_or_none name -> PyVal.truthy name = true ->
      Cli.autodetect_mode E f st = (Raise (Error "AttributeError"), probed)
      /\ forall args rest,
           FS.exists_ (fs st) (Cli.out_file_of (Cli.arg_out args) f)
             && negb (Cli.arg_overwrite args) = false ->
           for_each (f :: rest) (Cli.convert_file E args "auto") st =
           (Raise (Error "AttributeError"), probed)).
Proof.
  intros Ht name probed. rewrite (autodetect_mode_spec E f st Ht).
  fold name. fold probed. split.
  - intros Hname.
    assert (Hok : exists codec, PyVal.or_empty_lower name = Ok codec).
    { destruct Hname as [Htext|Hfalse]; [|unfold PyVal.or_empty_lower].
      - rewrite (or_empty_lower_text name Htext). eauto.
      - rewrite Hfalse. eauto. }
    destruct Hok as [codec Hc]. rewrite Hc.
    exists (Cli.mode_of_codec codec). split; [reflexivity|].
    destruct (mode_of_codec_cases codec) as [[Hm _]|[Hm _]]; auto.
  - intros Hnot Htruthy.
    assert (Hraise : PyVal.or_empty_lower name = Raise (Error "AttributeError")).
    { unfold PyVal.or_empty_lower. rewrite Htruthy. revert Hnot.
      generalize name. intros [| | |s| |] Hnot; try reflexivity;
        exfalso; apply Hnot; exact I. }
    rewrite Hraise. split; [reflexivity|].
    intros args rest Hskip. apply for_each_raise.
    unfold Cli.convert_file, bind at 1. unfold get_fs at 1. rewrite Hskip.
    change (Cli.resolve_mode E "auto" f) with (Cli.autodetect_mode E f).
    unfold bind at 1. rewrite (autodetect_mode_spec E f st Ht).
    fold name. now rewrite Hraise.
Qed.

Lemma X10_autodetect_outcomes_witness :
  let E := Sample.world (ProbeJson Scenario.stream_with_odd_codec)
             (ProbeJson Sample.indexed_stream) 0 in
  let st := Sample.start Sample.one_file in
  Cli.autodetect_mode E ["video.mp4"] st =
  (Raise (Error "AttributeError"), emitted st [EProbe (Cli.info_cmd ["video.mp4"])]).
Proof.
  intros E st.
  apply (proj2 (X10_autodetect_outcomes E ["video.mp4"] st (conj eq_refl eq_refl))).
  - intros H. exact H.
  - reflexivity.
Defined.

(** X11.  When [has_audio_stream] answers true.  With the tools installed
    the answer is true exactly when ffprobe's output decodes to an object
    whose [streams] entry is truthy; every other outcome, a decoded value
    that is no object included, gives false.  Either way the probe is the
    only effect. *)
Theorem X11_has_audio_exactly (E : env) (f : Path) (st : state) :
  tools_ok E ->
  exists b,
    Cli.has_audio_stream E f st = (Ok b, emitted st [EProbe (Cli.audio_cmd f)])
    /\ (b = true <->
        exists fields v,
          ffprobe E (Cli.audio_cmd f) (fs st) = ProbeJson (JObj fields)
          /\ Py.assoc "streams" fields = Some v
          /\ PyVal.truthy v = true).
Proof.
  intros Ht. rewrite (has_audio_stream_spec E f st Ht).
  eexists. split; [reflexivity|].
  destruct (ffprobe E (Cli.audio_cmd f) (fs st)) as [| |data]; simpl.
  - split; [discriminate|]. intros [fields [v [H _]]]. discriminate H.
  - split; [discriminate|]. intros [fields [v [H _]]]. discriminate H.
  - destruct data as [|b|n|s|items|fields]; simpl;
      try (split; [discriminate|]; intros [fields [v [H _]]]; discriminate H).
    unfold Cli.any_stream, rbind, PyVal.get.
    destruct (Py.assoc "streams" fields) as [v|] eqn:Hs; simpl.
    + split.
      * intros Hv. exists fields, v. auto.
      * intros [fields' [v' [Heq [Hs' Hv']]]]. inversion Heq. subst.
        rewrite Hs in Hs'. inversion Hs'. now subst.
    + split; [discriminate|].
      intros [fields' [v' [Heq [Hs' _]]]]. inversion Heq. subst.
      rewrite Hs in Hs'. discriminate Hs'.
Qed.

Lemma X11_has_audio_exactly_witness :
  let E := Sample.world ProbeFailed (ProbeJson Sample.indexed_stream) 0 in
  let st := Sample.start Sample.one_file in
  exists b,
    Cli.has_audio_stream E ["video.mp4"] st =
    (Ok b, emitted st [EProbe (Cli.audio_cmd ["video.mp4"])]).
Proof.
  intros E st.
  destruct (X11_has_audio_exactly E ["video.mp4"] st (conj eq_refl eq_refl))
    as [b [H _]].
  exists b. exact H.
Defined.

(* ================================================================= *)
(** ** Further properties: destinations and candidates *)

Lemma rsplit_dot_mp3 (s : string) :
  PathLib.rsplit_dot (s ^^ ".mp3") = Some (s, ".mp3").
Proof.
  induction s as [|c s IH]; [reflexivity|].
  cbn [String.append PathLib.rsplit_dot]. now rewrite IH.
Qed.

Lemma stem_not_empty (p : Path) : PathLib.name p <> "" -> PathLib.stem p <> "".
Proof.
  unfold PathLib.stem, PathLib.split_name. intros Hname.
  destruct (PathLib.rsplit_dot (PathLib.name p)) as [[a b]|]; [|exact Hname].
  destruct a as [|c a]; [exact Hname|].
  destruct (_ && _); [discriminate|exact Hname].
Qed.

Lemma split_name_mp3 (s : string) :
  s <> "" -> PathLib.split_name (s ^^ ".mp3") = (s, ".mp3").
Proof.
  intros Hs. unfold PathLib.split_name. rewrite rsplit_dot_mp3.
  destruct s as [|c s]; [now elim Hs|reflexivity].
Qed.

(** X12.  The destination of a file ([out_file] of both loops).  For a file
    with a name, the destination lies in the output directory, or beside the
    file when none is given; its name is the stem of the file followed by
    [.mp3], so its suffix is [.mp3] and its stem that of the file.  A
    destination is therefore never a candidate of the scan, and a candidate
    is never its own destination. *)
Theorem X12_destination (out_dir : option Path) (f : Path) :
  PathLib.name f <> "" ->
  let out := Cli.out_file_of out_dir f in
  Legacy.out_file_of out_dir f = out
  /\ PathLib.parent out = match out_dir with Some d => d | None => PathLib.parent f end
  /\ PathLib.name out = PathLib.stem f ^^ ".mp3"
  /\ PathLib.suffix out = ".mp3"
  /\ PathLib.stem out = PathLib.stem f
  /\ video_ext out = false
  /\ (video_ext f = true -> out <> f).
Proof.
  intros Hname out.
  assert (Hn : PathLib.name out = PathLib.stem f ^^ ".mp3").
  { unfold out, Cli.out_file_of, PathLib.joinpath, PathLib.name. apply last_last. }
  assert (Hsplit : PathLib.split_name (PathLib.name out) = (PathLib.stem f, ".mp3")).
  { rewrite Hn. apply split_name_mp3, stem_not_empty, Hname. }
  assert (Hext : video_ext out = false).
  { unfold video_ext, PathLib.suffix. rewrite Hsplit. reflexivity. }
  split; [reflexivity|]. split.
  { unfold out, Cli.out_file_of, PathLib.joinpath, PathLib.parent.
    apply removelast_last. }
  split; [exact Hn|]. split; [unfold PathLib.suffix; now rewrite Hsplit|].
  split; [unfold PathLib.stem at 1; now rewrite Hsplit|].
  split; [exact Hext|].
  intros Hv Heq. rewrite Heq in Hext. congruence.
Qed.

Lemma X12_destination_witness :
  Cli.out_file_of (Some ["out"]) ["in"; "a"; "my.talk.MP4"] = ["out"; "my.talk.mp3"]
  /\ PathLib.suffix (Cli.out_file_of None ["in"; "a"; "my.talk.MP4"]) = ".mp3".
Proof.
  split; [reflexivity|].
  apply (X12_destination None ["in"; "a"; "my.talk.MP4"]). discriminate.
Defined.

(** X13.  Two candidates with one destination.  With an output directory,
    files of the same stem have the same destination, wherever they lie and
    whatever their extension.  When overwrite is off, the first of them is
    converted, and its encoder leaves the destination behind, the second is
    then skipped as existing: one encoder is started for the two. *)
Theorem X13_same_stem_second_skipped (E : env) (args : Cli.Args) (mode fm : string)
    (d f1 f2 : Path) (rest : list Path) (st st1 : state) (f' : filesystem)
    (cmd : list string) :
  let out := Cli.out_file_of (Some d) f1 in
  Cli.arg_out args = Some d ->
  PathLib.stem f2 = PathLib.stem f1 ->
  Cli.arg_overwrite args = false ->
  tools_ok E ->
  FS.exists_ (fs st) out = false ->
  Cli.resolve_mode E mode f1 st = (Ok fm, st1) ->
  audio_of_outcome (ffprobe E (Cli.audio_cmd f1) (fs st)) = true ->
  FS.mkdir_p (fs st) (PathLib.parent out) = Some f' ->
  Cli.build_cmd f1 out false fm (Cli.arg_bitrate args) (Cli.arg_vbr_q args) = Ok cmd ->
  fst (ffmpeg E cmd f') = 0%Z ->
  FS.exists_ (snd (ffmpeg E cmd f')) out = true ->
  Cli.out_file_of (Cli.arg_out args) f2 = out
  /\ for_each (f1 :: f2 :: rest) (Cli.convert_file E args mode) st =
     for_each rest (Cli.convert_file E args mode)
       (mkState (snd (ffmpeg E cmd f')) (stdin st1)
          (trace st1 ++
           [EPrint ("Converting: " ^^ PathLib.str f1 ^^ " -> " ^^ PathLib.str out
                      ^^ " [" ^^ Py.upper fm ^^ "]");
            EProbe (Cli.audio_cmd f1);
            EMkdir (PathLib.parent out);
            EFfmpeg cmd;
            EPrint "OK";
            EPrint ("Skip (exists): " ^^ PathLib.str out)])).
Proof.
  intros out Hout Hstem Hov Ht Hnew Hres Haudio Hmk Hcmd Hrc Hwritten.
  assert (Hsame : Cli.out_file_of (Cli.arg_out args) f2 = out).
  { rewrite Hout. unfold out, Cli.out_file_of. now rewrite Hstem. }
  split; [exact Hsame|].
  assert (Hskip : FS.exists_ (fs st) (Cli.out_file_of (Cli.arg_out args) f1)
                  && negb (Cli.arg_overwrite args) = false).
  { rewrite Hout. fold out. now rewrite Hnew. }
  rewrite Hout in Hskip.
  pose proof (convert_file_runs E args mode fm f1 st st1 f' cmd Ht) as Hrun.
  rewrite Hout, Hov in Hrun. fold out in Hrun.
  rewrite Hov in Hskip. fold out in Hskip.
  specialize (Hrun Hskip Hres Haudio Hmk Hcmd).
  rewrite Hrc in Hrun. cbn [Z.eqb negb] in Hrun. cbv zeta in Hrun.
  rewrite (for_each_continue _ _ _ _ _ Hrun).
  apply for_each_continue.
  rewrite convert_file_skip_exists.
  - rewrite Hsame. unfold emitted. cbn [fs stdin trace].
    rewrite <- !app_assoc. reflexivity.
  - rewrite Hsame. exact Hwritten.
  - exact Hov.
Qed.

Lemma X13_same_stem_second_skipped_witness :
  let E := Scenario.writer ["out"; "talk.mp3"] in
  let args := Cli.mkArgs ["in"] (Some ["out"]) "cbr" "192k" 2 true false true in
  let cmd := ["ffmpeg"; "-hide_banner"; "-nostats"; "-i"; "/in/a/talk.mp4"; "-vn";
              "-map"; "0:a:0"; "-map_metadata"; "0"; "-c:a"; "libmp3lame";
              "-b:a"; "192k"; "-n"; "/out/talk.mp3"] in
  for_each [["in"; "a"; "talk.mp4"]; ["in"; "b"; "talk.mov"]]
    (Cli.convert_file E args "cbr") (Sample.start Scenario.same_stem) =
  (Ok tt,
   mkState (Scenario.same_stem ++ [(["out"; "talk.mp3"], KFile)]) []
     [EPrint "Converting: /in/a/talk.mp4 -> /out/talk.mp3 [CBR]";
      EProbe (Cli.audio_cmd ["in"; "a"; "talk.mp4"]);
      EMkdir ["out"];
      EFfmpeg cmd;
      EPrint "OK";
      EPrint "Skip (exists): /out/talk.mp3"]).
Proof.
  intros E args cmd.
  apply (X13_same_stem_second_skipped E args "cbr" "cbr" ["out"]
           ["in"; "a"; "talk.mp4"] ["in"; "b"; "talk.mov"] []
           (Sample.start Scenario.same_stem) (Sample.start Scenario.same_stem)
           Scenario.same_stem cmd); try reflexivity.
  split; reflexivity.
Defined.

Lemma is_dir_exists (f : filesystem) (p : Path) :
  FS.is_dir f p = true -> FS.exists_ f p = true.
Proof.
  unfold FS.is_dir, FS.exists_. destruct (FS.lookup f p) as [[|]|];
    try discriminate; reflexivity.
Qed.

(** X14.  A directory without videos.  When no file in the scanned
    directory (directly in it, or anywhere below it in a recursive scan) has
    a video extension, a run of [cli.py] that passed the check of [--vbr-q]
    and asks nothing ends in [SystemExit] naming the directory right after
    the scan: nothing is probed, created or converted. *)
Theorem X14_directory_without_videos (E : env) (args : Cli.Args) (st : state) :
  let in_path := Cli.arg_input args in
  FS.is_dir (fs st) in_path = true ->
  Cli.vbr_q_rejected args = false ->
  Cli.arg_no_prompt args = true ->
  (forall p, FS.is_file (fs st) p = true ->
             contained in_path (Cli.arg_recursive args) p ->
             ~ In (Py.lower (PathLib.suffix p)) [".mp4"; ".m4v"; ".mov"]) ->
  Cli.main E args st =
  (Raise (SystemExit ("No MP4/M4V/MOV files found in: " ^^ PathLib.str in_path)),
   emitted st [EScan in_path (Cli.arg_recursive args)]).
Proof.
  intros in_path Hdir Hq Hnp Hnone.
  assert (Hfiles : Cli.candidate_files (fs st)
                     (Cli.iter_inputs_on (fs st) in_path (Cli.arg_recursive args)) = []).
  { destruct (Cli.candidate_files _ _) as [|p files] eqn:Hc; [reflexivity|].
    exfalso.
    assert (Hin : In p (Cli.candidate_files (fs st)
                          (Cli.iter_inputs_on (fs st) in_path (Cli.arg_recursive args)))).
    { rewrite Hc. now left. }
    unfold Cli.candidate_files in Hin. apply filter_In in Hin.
    destruct Hin as [Hin Hp]. apply andb_true_iff in Hp. destruct Hp as [Hf Hv].
    apply (proj1 (sorted_in _ _)) in Hin.
    unfold Cli.iter_inputs_on in Hin. rewrite Hdir in Hin.
    assert (Hcont : contained in_path (Cli.arg_recursive args) p).
    { destruct (Cli.arg_recursive args); apply filter_In in Hin;
        destruct Hin as [Hin _].
      - exact (proj1 (rglob_contained _ _ _ Hf) Hin).
      - exact (proj1 (iterdir_contained _ _ _ Hf) Hin). }
    apply (Hnone p Hf Hcont). now apply video_ext_iff. }
  apply main_raise. unfold Cli.prepare. fold in_path.
  unfold bind at 1, get_fs at 1. rewrite (is_dir_exists _ _ Hdir). cbn [negb].
  rewrite Hq. unfold bind at 1. rewrite Hnp, andb_false_r. unfold ret at 1.
  unfold bind at 1, Cli.iter_inputs, bind at 1, get_fs at 1. rewrite Hdir.
  unfold bind at 1, emit at 1, ret at 1.
  unfold bind at 1, get_fs at 1. cbn [fs]. rewrite Hfiles. reflexivity.
Qed.

Lemma X14_directory_without_videos_witness :
  let E := Sample.world ProbeFailed ProbeFailed 0 in
  let args := Cli.mkArgs ["d"; "sub"] None "auto" "192k" 2 false false true in
  let fs0 := [(["d"], KDir); (["d"; "sub"], KDir); (["d"; "a.mp4"], KFile);
              (["d"; "sub"; "readme.md"], KFile)] in
  Cli.main E args (Sample.start fs0) =
  (Raise (SystemExit "No MP4/M4V/MOV files found in: /d/sub"),
   mkState fs0 [] [EScan ["d"; "sub"] false]).
Proof.
  intros E args fs0.
  apply (X14_directory_without_videos E args (Sample.start fs0)); try reflexivity.
  intros p Hf [n [rest [Hp Hrest]]]. rewrite (Hrest eq_refl) in Hp.
  apply is_file_in in Hf. cbn in Hf, Hp.
  destruct Hf as [H|[H|[H|[H|[]]]]]; rewrite <- H in Hp |- *;
    try discriminate Hp.
  cbn. intros [H1|[H1|[H1|[]]]]; discriminate H1.
Defined.

Lemma permutation_filter {A} (keep : A -> bool) (l l' : list A) :
  Permutation l l' -> Permutation (filter keep l) (filter keep l').
Proof.
  induction 1 as [|x l l' Hp IH|x y l|l l' l'' H1 IH1 H2 IH2]; simpl.
  - constructor.
  - destruct (keep x); [now constructor|exact IH].
  - destruct (keep x), (keep y); try reflexivity. apply perm_swap.
  - now transitivity (filter keep l').
Qed.

Lemma filter_sorted (keep : Path -> bool) (l : list Path) :
  filter keep (sorted l) = sorted (filter keep l).
Proof.
  apply sorted_unique.
  - apply permutation_filter, sorted_perm.
  - apply strongly_sorted_filter, sorted_strongly.
Qed.

Lemma filter_filter {A} (p q : A -> bool) (l : list A) :
  filter p (filter q l) = filter (fun x => q x && p x) l.
Proof.
  induction l as [|x l IH]; simpl; [reflexivity|].
  destruct (q x); simpl; [destruct (p x)|]; now rewrite IH.
Qed.

(** X15.  The two programs collect the same candidate files, for every
    input and either scan, although the recursive generator of the earlier
    script does not ask [is_file] and also yields directories named like a
    video: the filter of [main] removes them.  In [cli.py] that second filter
    removes nothing from a directory scan: the candidates are the sorted
    inputs. *)
Theorem X15_same_candidates (f : filesystem) (in_path : Path) (recursive : bool) :
  Legacy.candidate_files f (Legacy.iter_inputs_on f in_path recursive)
  = Cli.candidate_files f (Cli.iter_inputs_on f in_path recursive)
  /\ (FS.is_dir f in_path = true ->
      Cli.candidate_files f (Cli.iter_inputs_on f in_path recursive)
      = sorted (Cli.iter_inputs_on f in_path recursive)).
Proof.
  set (keep := fun p => FS.is_file f p && video_ext p).
  assert (Hidem : forall l, filter keep (sorted (filter keep l)) = sorted (filter keep l)).
  { intros l. rewrite filter_sorted, filter_filter. f_equal.
    apply filter_ext. intros p. now destruct (keep p). }
  unfold Legacy.candidate_files, Cli.candidate_files,
    Legacy.iter_inputs_on, Cli.iter_inputs_on. fold keep.
  destruct (FS.is_dir f in_path).
  - destruct recursive.
    + split; [|intros _; apply Hidem].
      rewrite Hidem, filter_sorted, filter_filter. f_equal.
      apply filter_ext. intros p. unfold keep.
      destruct (FS.is_file f p), (video_ext p); reflexivity.
    + split; [reflexivity|intros _; apply Hidem].
  - split; [reflexivity|discriminate].
Qed.

Lemma X15_same_candidates_witness :
  Legacy.iter_inputs_on Scenario.video_named_dir ["d"] true
  = [["d"; "clips.mp4"]; ["d"; "clips.mp4"; "one.mov"]]
  /\ Cli.candidate_files Scenario.video_named_dir
       (Cli.iter_inputs_on Scenario.video_named_dir ["d"] true)
     = sorted (Cli.iter_inputs_on Scenario.video_named_dir ["d"] true).
Proof.
  split; [reflexivity|].
  apply (X15_same_candidates Scenario.video_named_dir ["d"] true). reflexivity.
Defined.

(** X16.  A file that converts.  A file that is not skipped, has audio and
    whose encoder exits with status 0 is reported by the line of the
    conversion and by OK, and the loop goes on with the remaining files in the
    file system the encoder left.  The order of the effects is fixed: the
    line, the audio probe (in [cli.py]), the creation of the destination
    directory, the encoder, OK. *)
Theorem X16_converted_file (E : env) (f : Path) (rest : list Path)
    (st : state) (f' : filesystem) :
  (forall (args : Cli.Args) (mode fm : string) (st1 : state) (cmd : list string),
     let out_file := Cli.out_file_of (Cli.arg_out args) f in
     tools_ok E ->
     FS.exists_ (fs st) out_file && negb (Cli.arg_overwrite args) = false ->
     Cli.resolve_mode E mode f st = (Ok fm, st1) ->
     audio_of_outcome (ffprobe E (Cli.audio_cmd f) (fs st)) = true ->
     FS.mkdir_p (fs st) (PathLib.parent out_file) = Some f' ->
     Cli.build_cmd f out_file (Cli.arg_overwrite args) fm
       (Cli.arg_bitrate args) (Cli.arg_vbr_q args) = Ok cmd ->
     fst (ffmpeg E cmd f') = 0%Z ->
     for_each (f :: rest) (Cli.convert_file E args mode) st =
     for_each rest (Cli.convert_file E args mode)
       (mkState (snd (ffmpeg E cmd f')) (stdin st1)
          (trace st1 ++
           [EPrint ("Converting: " ^^ PathLib.str f ^^ " -> " ^^ PathLib.str out_file
                      ^^ " [" ^^ Py.upper fm ^^ "]");
            EProbe (Cli.audio_cmd f);
            EMkdir (PathLib.parent out_file);
            EFfmpeg cmd;
            EPrint "OK"])))
  /\ (forall (args : Legacy.Args) (mode : string),
        let out_file := Legacy.out_file_of (Legacy.arg_out args) f in
        let cmd := Legacy.build_cmd f out_file (Legacy.arg_overwrite args) mode
                     (Legacy.arg_bitrate args) (Legacy.arg_vbr_q args) in
        which E "ffmpeg" = true ->
        FS.exists_ (fs st) out_file && negb (Legacy.arg_overwrite args) = false ->
        FS.mkdir_p (fs st) (PathLib.parent out_file) = Some f' ->
        fst (ffmpeg E cmd f') = 0%Z ->
        for_each (f :: rest) (Legacy.convert_file E args mode) st =
        for_each rest (Legacy.convert_file E args mode)
          (mkState (snd (ffmpeg E cmd f')) (stdin st)
             (trace st ++
              [EPrint ("Konvertiere: " ^^ PathLib.str f ^^ " -> "
                         ^^ PathLib.str out_file ^^ " [" ^^ Py.upper mode ^^ "]");
               EMkdir (PathLib.parent out_file);
               EFfmpeg cmd;
               EPrint "OK"]))).
Proof.
  split.
  - intros args mode fm st1 cmd out_file Ht Hskip Hres Haudio Hmk Hcmd Hrc.
    apply for_each_continue.
    rewrite (convert_file_runs E args mode fm f st st1 f' cmd
               Ht Hskip Hres Haudio Hmk Hcmd).
    fold out_file. rewrite Hrc. reflexivity.
  - intros args mode out_file cmd Ht Hskip Hmk Hrc.
    apply for_each_continue.
    rewrite (legacy_convert_file_runs E args mode f st f' Ht Hskip Hmk).
    fold out_file. fold cmd. rewrite Hrc. reflexivity.
Qed.

Lemma X16_converted_file_witness :
  let E := Sample.world (ProbeJson (Sample.one_stream "mp3"))
             (ProbeJson Sample.indexed_stream) 0 in
  let args := Cli.mkArgs ["video.mp4"] None "auto" "192k" 2 false true true in
  let st := Sample.start Sample.converted in
  for_each [["video.mp4"]] (Cli.convert_file E args "auto") st =
  (Ok tt,
   mkState Sample.converted []
     [EProbe (Cli.info_cmd ["video.mp4"]);
      EPrint "Converting: /video.mp4 -> /video.mp3 [COPY]";
      EProbe (Cli.audio_cmd ["video.mp4"]);
      EMkdir [];
      EFfmpeg ["ffmpeg"; "-hide_banner"; "-nostats"; "-i"; "/video.mp4"; "-vn";
               "-map"; "0:a:0"; "-map_metadata"; "0"; "-c:a"; "copy"; "-y";
               "/video.mp3"];
      EPrint "OK"]).
Proof.
  intros E args st.
  apply (proj1 (X16_converted_file E ["video.mp4"] [] st Sample.converted)
           args "auto" "copy" (emitted st [EProbe (Cli.info_cmd ["video.mp4"])])
           ["ffmpeg"; "-hide_banner"; "-nostats"; "-i"; "/video.mp4"; "-vn";
            "-map"; "0:a:0"; "-map_metadata"; "0"; "-c:a"; "copy"; "-y";
            "/video.mp3"]
           (conj eq_refl eq_refl) eq_refl eq_refl eq_refl eq_refl eq_refl eq_refl).
Defined.








